(** * lovable-task: the lead-capture form and its confirmation handler

    A shallow embedding of

    - [supabase/functions/send-confirmation/index.ts], the edge function that
      builds a welcome message (AI text or a fixed fallback), renders the HTML
      template and hands the mail to the Resend client;
    - [src/components/LeadCaptureForm.tsx], the submit handler of the form;
    - the field validator of [src/lib/validation.ts], which the form imports.

    JavaScript values that arrive from outside (the request body, the reply
    of the text-generation API, the value the mail client resolves to) are
    dynamically typed, so they are modelled as JSON trees and the handler's
    property reads, optional chains, truthiness tests and template
    interpolations are written out on them. The outside world (network,
    mail client, clock, environment variables) is a record of oracles; the
    handler runs in a small exception monad that also records the external
    calls it makes. *)

From Stdlib Require Import String Ascii List Bool Arith Lia.
Import ListNotations.
Local Open Scope list_scope.
Local Open Scope string_scope.

(* ===================================================================== *)
(** * JavaScript values and the runtime operations the sources rely on   *)
(* ===================================================================== *)

Module JS.

#[local] Set Warnings "-register-all".

(** A number, kept as the decimal text that the runtime's number-to-string
    conversion gives for it (42, 0.8, 1e+21, NaN): the sources only
    interpolate numbers, test them for truthiness and serialise them. *)
Definition Number : Type := string.

(** A value as [JSON.parse] builds it, plus [undefined], which property
    reads produce.  An object is the list of its own properties in
    insertion order, each key once. *)
Inductive JSValue : Type :=
| JUndefined
| JNull
| JBool (b : bool)
| JNum (n : Number)
| JStr (s : string)
| JArr (elems : list JSValue)
| JObj (props : list (string * JSValue)).

(** An [Error] object as the [catch] clauses see it. Promise rejections and
    runtime faults all carry one. *)
Record JSError : Type := mkError { err_name : string; err_message : string }.

(** Outcome of evaluating an expression: a value, or a thrown error. *)
Inductive Completion (A : Type) : Type :=
| Normal (a : A)
| Throw (e : JSError).
Arguments Normal {A} a.
Arguments Throw {A} e.

Definition cbind {A B} (c : Completion A) (k : A -> Completion B) : Completion B :=
  match c with
  | Normal a => k a
  | Throw e => Throw e
  end.

Definition TypeError (msg : string) : JSError := mkError "TypeError" msg.

Definition nullish (v : JSValue) : bool :=
  match v with
  | JUndefined | JNull => true
  | _ => false
  end.

(** ToBoolean. *)
Definition truthy (v : JSValue) : bool :=
  match v with
  | JUndefined | JNull => false
  | JBool b => b
  | JNum n => negb (String.eqb n "0" || String.eqb n "NaN")
  | JStr s => negb (String.eqb s EmptyString)
  | JArr _ | JObj _ => true
  end.

Fixpoint own (k : string) (props : list (string * JSValue)) : option JSValue :=
  match props with
  | [] => None
  | (k', v) :: rest => if String.eqb k k' then Some v else own k rest
  end.

Definition has_own (k : string) (props : list (string * JSValue)) : bool :=
  match own k props with
  | Some _ => true
  | None => false
  end.

(** [v.k] for the property names the sources read ([name], [email],
    [industry], [choices], [message], [content], [data], [id], [error]):
    none of them is inherited from a built-in prototype, so a primitive or
    an array answers [undefined] and an object answers its own property.
    Reading from [null] or [undefined] throws. *)
Definition member (v : JSValue) (k : string) : Completion JSValue :=
  match v with
  | JUndefined =>
      Throw (TypeError ("Cannot read properties of undefined (reading '" ++ k ++ "')"))
  | JNull =>
      Throw (TypeError ("Cannot read properties of null (reading '" ++ k ++ "')"))
  | JObj props =>
      Normal (match own k props with Some x => x | None => JUndefined end)
  | _ => Normal JUndefined
  end.

(** [v[0]]: the first element of an array, the first character of a
    string, the own property named 0 of an object. *)
Definition index0 (v : JSValue) : Completion JSValue :=
  match v with
  | JUndefined => Throw (TypeError "Cannot read properties of undefined (reading '0')")
  | JNull => Throw (TypeError "Cannot read properties of null (reading '0')")
  | JArr (x :: _) => Normal x
  | JStr (String c _) => Normal (JStr (String c EmptyString))
  | JObj props => Normal (match own "0" props with Some x => x | None => JUndefined end)
  | _ => Normal JUndefined
  end.

(** ToString, as a template literal applies it to an interpolated value.
    An array joins its elements with commas ([null] and [undefined]
    elements print as nothing).  A parsed object has no callable
    [toString] of its own: when it has an own property of that name the
    inherited one is shadowed by a non-function, [valueOf] cannot produce a
    primitive either, and the conversion throws; otherwise the inherited
    [Object.prototype.toString] answers. *)
Fixpoint ToString (v : JSValue) : Completion string :=
  match v with
  | JUndefined => Normal "undefined"
  | JNull => Normal "null"
  | JBool true => Normal "true"
  | JBool false => Normal "false"
  | JNum n => Normal n
  | JStr s => Normal s
  | JArr elems =>
      (fix join (l : list JSValue) : Completion string :=
         match l with
         | [] => Normal EmptyString
         | x :: rest =>
             cbind (if nullish x then Normal EmptyString else ToString x) (fun sx =>
             match rest with
             | [] => Normal sx
             | _ => cbind (join rest) (fun sr => Normal (sx ++ "," ++ sr))
             end)
         end) elems
  | JObj props =>
      if has_own "toString" props
      then Throw (TypeError "Cannot convert object to primitive value")
      else Normal "[object Object]"
  end.

(** The document [JSON.stringify] writes for a value nested inside an object
    or array, as a tree: properties whose value is [undefined] are left
    out, [undefined] array elements and non-finite numbers become [null]. *)
Fixpoint jsonify (v : JSValue) : JSValue :=
  match v with
  | JUndefined => JNull
  | JNum n =>
      if String.eqb n "NaN" || String.eqb n "Infinity" || String.eqb n "-Infinity"
      then JNull else JNum n
  | JArr elems => JArr (map jsonify elems)
  | JObj props =>
      JObj ((fix go (l : list (string * JSValue)) : list (string * JSValue) :=
               match l with
               | [] => []
               | (k, JUndefined) :: rest => go rest
               | (k, x) :: rest => (k, jsonify x) :: go rest
               end) props)
  | _ => v
  end.

(** [JSON.stringify] of an object literal. *)
Definition JSON_stringify (props : list (string * JSValue)) : JSValue :=
  jsonify (JObj props).

(** [{ ...a, ...b }] on string-valued header objects: the keys of [a] in
    order, then the new keys of [b]; a key of [b] already in [a] keeps its
    place and takes [b]'s value. *)
Fixpoint assign (k v : string) (o : list (string * string)) : list (string * string) :=
  match o with
  | [] => [(k, v)]
  | (k', v') :: rest =>
      if String.eqb k k' then (k', v) :: rest else (k', v') :: assign k v rest
  end.

Definition spread (a b : list (string * string)) : list (string * string) :=
  fold_left (fun acc kv => assign (fst kv) (snd kv) acc) b a.

End JS.

(* ===================================================================== *)
(** * The confirmation handler: [send-confirmation/index.ts]             *)
(* ===================================================================== *)

Module Handler.
Import JS.

(** ** The outside world *)

(** What [fetch] is called with. The body is the JSON document that
    [JSON.stringify] writes, kept as a tree. *)
Record FetchInit : Type := mkFetchInit {
  fetch_method : string;
  fetch_headers : list (string * string);
  fetch_body : JSValue
}.

(** A fetched response; only [json()] is used on it, and it may reject. *)
Record FetchResponse : Type := mkFetchResponse {
  response_json : Completion JSValue
}.

(** The argument of [emailClient.emails.send]. *)
Record EmailPayload : Type := mkEmailPayload {
  from : string;
  to : list JSValue;
  subject : string;
  html : string
}.

(** The incoming [Request]: its method and what [request.json()] settles to. *)
Record Request : Type := mkRequest {
  method : string;
  json : Completion JSValue
}.

(** The outgoing [Response]. A JSON body is kept as the tree of the document
    written into it; [None] is the [null] body. *)
Record Response : Type := mkResponse {
  status : nat;
  headers : list (string * string);
  body : option JSValue
}.

(** The collaborators, as oracles. A [Throw] is a rejected promise. The
    mail client is the one built from the configured key. *)
Record World : Type := mkWorld {
  Deno_env_get : string -> option string;
  net_fetch : string -> FetchInit -> Completion FetchResponse;
  resend_emails_send : string -> EmailPayload -> Completion JSValue;
  Date_toISOString : string
}.

(** External calls, in the order the handler makes them. *)
Inductive Event : Type :=
| EvFetch (url : string) (init : FetchInit)
| EvSend (payload : EmailPayload).

(** ** The monad of the handler's async functions *)

Definition Async (A : Type) : Type :=
  World -> list Event -> Completion A * list Event.

Definition ret {A} (a : A) : Async A := fun _ t => (Normal a, t).

Definition bind {A B} (m : Async A) (k : A -> Async B) : Async B :=
  fun w t =>
    match m w t with
    | (Normal a, t') => k a w t'
    | (Throw e, t') => (Throw e, t')
    end.

Declare Scope async_scope.
Delimit Scope async_scope with async.
Notation "x <- m ;; k" := (bind m (fun x => k))
  (at level 61, m at next level, right associativity) : async_scope.
Local Open Scope async_scope.

(** An expression that returns or throws without touching the world; also
    [await] of an already settled promise. *)
Definition lift {A} (c : Completion A) : Async A := fun _ t => (c, t).

(** [try { body } catch (err) { handler err }] *)
Definition try_catch {A} (body : Async A) (handler : JSError -> Async A) : Async A :=
  fun w t =>
    match body w t with
    | (Normal a, t') => (Normal a, t')
    | (Throw e, t') => handler e w t'
    end.

Definition ask : Async World := fun w t => (Normal w, t).

Definition fetch (url : string) (init : FetchInit) : Async FetchResponse :=
  fun w t => (net_fetch w url init, (t ++ [EvFetch url init])%list).

(** ** Configuration and constants *)

Record Config : Type := mkConfig {
  RESEND_KEY : string;
  OPENAI_KEY : option string;
  EMAIL_FROM : string;
  AI_MODEL : string;
  MAX_TOKENS : Number;
  TEMPERATURE : Number;
  CONTENT_LIMIT : Number
}.

(** [Deno.env.get(k) || d] *)
Definition env_or (v : option string) (d : string) : string :=
  match v with
  | Some s => if String.eqb s EmptyString then d else s
  | None => d
  end.

Definition CONFIG (w : World) : Config :=
  {| RESEND_KEY := env_or (Deno_env_get w "RESEND_PUBLIC_KEY") "invalid_key";
     OPENAI_KEY := Deno_env_get w "OPENAI_API_KEY";
     EMAIL_FROM := "Innovation Community <testing-email@lovable.dev>";
     AI_MODEL := "gpt-4o-mini";
     MAX_TOKENS := "200";
     TEMPERATURE := "0.8";
     CONTENT_LIMIT := "150" |}.

Module HTTP_HEADERS.

Definition CORS : list (string * string) :=
  [ ("Access-Control-Allow-Origin", "*");
    ("Access-Control-Allow-Headers", "authorization, x-client-info, apikey, content-type") ].

Definition JSON : list (string * string) :=
  [ ("Content-Type", "application/json") ].

End HTTP_HEADERS.

(** [emailClient.emails.send], on the client built from [CONFIG.RESEND_KEY]. *)
Definition emailClient_emails_send (payload : EmailPayload) : Async JSValue :=
  fun w t => (resend_emails_send w (RESEND_KEY (CONFIG w)) payload, (t ++ [EvSend payload])%list).

(** Interpolation of a value that is a string or [undefined]. *)
Definition show_key (k : option string) : string :=
  match k with
  | Some s => s
  | None => "undefined"
  end.

(** ** The functions of the handler *)

(** Generates fallback content when AI is unavailable. *)
Definition generateFallbackMessage (name industry : string) : string :=
  "Hello " ++ name ++ "! 🌟 Welcome to our innovation community! We're excited to have a " ++ industry ++ " professional join our network. Prepare to explore breakthrough technologies, collaborate with industry pioneers, and discover game-changing opportunities that will reshape your professional landscape. Your innovation adventure starts now!".

(** [responseData?.choices[0]?.message?.content]: an optional chain stops
    with [undefined] at a nullish link guarded by [?.]; the index into
    [choices] is not guarded and throws when [choices] is nullish. *)
Definition first_completion_content (responseData : JSValue) : Completion JSValue :=
  if nullish responseData then Normal JUndefined else
  cbind (member responseData "choices") (fun choices =>
  cbind (index0 choices) (fun first =>
  if nullish first then Normal JUndefined else
  cbind (member first "message") (fun message =>
  if nullish message then Normal JUndefined else
  member message "content"))).

(** The endpoint of the text-generation API. *)
Definition OPENAI_URL : string := "https://api.openai.com/v1/chat/completions".

(** The [aiRequest] object of [createPersonalizedWelcomeMessage]. *)
Definition aiRequest (w : World) (recipientName userIndustry : string)
  : list (string * JSValue) :=
  [ ("model", JStr (AI_MODEL (CONFIG w)));
    ("messages", JArr
       [ JObj [ ("role", JStr "system");
                ("content", JStr ("You are a specialist in crafting dynamic, personalized welcome messages for an elite innovation community. Generate compelling, energetic content that inspires recipients about transforming their industry. Keep total length under " ++ CONTENT_LIMIT (CONFIG w) ++ " words.")) ];
         JObj [ ("role", JStr "user");
                ("content", JStr ("Craft an inspiring welcome message for " ++ recipientName ++ " from the " ++ userIndustry ++ " sector. Highlight how our innovation community will empower them to revolutionize their specific field. Be motivational and industry-focused, mentioning relevant opportunities and breakthrough innovations they can participate in.")) ] ]);
    ("temperature", JNum (TEMPERATURE (CONFIG w)));
    ("max_tokens", JNum (MAX_TOKENS (CONFIG w))) ].

(** The second argument of the [fetch] call. *)
Definition aiFetchInit (w : World) (recipientName userIndustry : string) : FetchInit :=
  {| fetch_method := "POST";
     fetch_headers :=
       [ ("Authorization", "Bearer " ++ show_key (OPENAI_KEY (CONFIG w)));
         ("Content-Type", "application/json") ];
     fetch_body := JSON_stringify (aiRequest w recipientName userIndustry) |}.

(** Creates AI-powered personalized welcome content. Whatever is thrown
    inside the [try] block ends in the fallback; so does a falsy content. *)
Definition createPersonalizedWelcomeMessage (recipientName userIndustry : string)
  : Async JSValue :=
  try_catch
    (w <- ask ;;
     aiResponse <- fetch OPENAI_URL (aiFetchInit w recipientName userIndustry) ;;
     responseData <- lift (response_json aiResponse) ;;
     content <- lift (first_completion_content responseData) ;;
     ret (if truthy content then content
          else JStr (generateFallbackMessage recipientName userIndustry)))
    (fun err => ret (JStr (generateFallbackMessage recipientName userIndustry))).

(** The double-quote character, for the attribute values of the template. *)
Definition dq : string := String (ascii_of_nat 34) EmptyString.

(** [s.replace(/\n/g, '<br>')] *)
Fixpoint replace_newlines (s : string) : string :=
  match s with
  | EmptyString => EmptyString
  | String c rest =>
      if Ascii.eqb c (ascii_of_nat 10) then "<br>" ++ replace_newlines rest
      else String c (replace_newlines rest)
  end.

(** The literal of [buildEmailTemplate] around its holes: [message] is the
    welcome text with its line breaks already replaced. *)
Definition email_html (industry message : string) : string :=
  "
    <div style=" ++
  dq ++
  "font-family: 'Segoe UI', Tahoma, Geneva, Verdana, sans-serif; max-width: 650px; margin: 0 auto; padding: 25px; background-color: #fafafa;" ++
  dq ++
  ">
      <header style=" ++
  dq ++
  "text-align: center; margin-bottom: 35px;" ++
  dq ++
  ">
        <h1 style=" ++
  dq ++
  "color: #2c3e50; margin-bottom: 15px; font-size: 28px;" ++
  dq ++
  ">🚀 Innovation Revolution Awaits!</h1>
        <div style=" ++
  dq ++
  "height: 3px; background: linear-gradient(90deg, #3498db, #9b59b6); border-radius: 2px; width: 100px; margin: 0 auto;" ++
  dq ++
  "></div>
      </header>
      
      <main style=" ++
  dq ++
  "background: linear-gradient(145deg, #4a90e2 0%, #7b68ee 100%); padding: 35px; border-radius: 15px; color: white; margin-bottom: 35px; box-shadow: 0 8px 32px rgba(0,0,0,0.1);" ++
  dq ++
  ">
        <div style=" ++
  dq ++
  "font-size: 19px; line-height: 1.7; text-align: center;" ++
  dq ++
  ">
          " ++
  message ++
  "
        </div>
      </main>
      
      <section style=" ++
  dq ++
  "background: white; padding: 30px; border-radius: 12px; margin-bottom: 30px; border-left: 4px solid #3498db; box-shadow: 0 4px 16px rgba(0,0,0,0.05);" ++
  dq ++
  ">
        <h3 style=" ++
  dq ++
  "color: #2c3e50; margin-top: 0; font-size: 22px; margin-bottom: 20px;" ++
  dq ++
  ">🎯 Your Innovation Journey Includes:</h3>
        <div style=" ++
  dq ++
  "color: #555; line-height: 1.8; font-size: 16px;" ++
  dq ++
  ">
          <div style=" ++
  dq ++
  "margin-bottom: 12px;" ++
  dq ++
  ">💡 <strong>Industry-specific insights</strong> for " ++
  industry ++
  " transformation</div>
          <div style=" ++
  dq ++
  "margin-bottom: 12px;" ++
  dq ++
  ">🔬 <strong>Priority access</strong> to revolutionary " ++
  industry ++
  " innovations</div>
          <div style=" ++
  dq ++
  "margin-bottom: 12px;" ++
  dq ++
  ">🌐 <strong>Network</strong> with top " ++
  industry ++
  " innovators and thought leaders</div>
          <div style=" ++
  dq ++
  "margin-bottom: 12px;" ++
  dq ++
  ">⚡ <strong>Accelerate solutions</strong> to " ++
  industry ++
  " industry challenges</div>
        </div>
      </section>
      
      <footer style=" ++
  dq ++
  "text-align: center; padding: 25px 0; border-top: 2px solid #ecf0f1;" ++
  dq ++
  ">
        <p style=" ++
  dq ++
  "color: #7f8c8d; margin: 0; font-size: 16px;" ++
  dq ++
  ">
          Ready to transform " ++
  industry ++
  "?<br>
          <strong style=" ++
  dq ++
  "color: #2c3e50;" ++
  dq ++
  ">The Innovation Community Leadership</strong>
        </p>
      </footer>
    </div>
  ".

(** Constructs the HTML email template. The parameter [name] is not used
    by the template. Calling [replace] on a value that is not a string
    throws. *)
Definition buildEmailTemplate (name industry : string) (personalizedMessage : JSValue)
  : Completion string :=
  match personalizedMessage with
  | JStr s => Normal (email_html industry (replace_newlines s))
  | JUndefined =>
      Throw (TypeError "Cannot read properties of undefined (reading 'replace')")
  | JNull =>
      Throw (TypeError "Cannot read properties of null (reading 'replace')")
  | _ => Throw (TypeError "personalizedMessage.replace is not a function")
  end.

(** [const { name, email, industry } = requestData]: throws on [null] and
    [undefined], reads the three properties otherwise. *)
Definition destructure (requestData : JSValue) : Completion (JSValue * JSValue * JSValue) :=
  match requestData with
  | JUndefined =>
      Throw (TypeError "Cannot destructure property 'name' of 'requestData' as it is undefined.")
  | JNull =>
      Throw (TypeError "Cannot destructure property 'name' of 'requestData' as it is null.")
  | _ =>
      cbind (member requestData "name") (fun name =>
      cbind (member requestData "email") (fun email =>
      cbind (member requestData "industry") (fun industry =>
      Normal (name, email, industry))))
  end.

(** Processes email sending with personalized content.

    The first log line interpolates [name] and [industry]; that conversion
    can throw, and once it has succeeded every later interpolation of the
    same value gives the same text, so the converted strings are passed on.
    The second log line interpolates the generated content. Console output
    itself is not recorded. *)
Definition processEmailDelivery (requestData : JSValue) : Async JSValue :=
  w <- ask ;;
  fields <- lift (destructure requestData) ;;
  let '(name, email, industry) := fields in
  name_text <- lift (ToString name) ;;
  industry_text <- lift (ToString industry) ;;
  customContent <- createPersonalizedWelcomeMessage name_text industry_text ;;
  _ <- lift (ToString customContent) ;;
  emailTemplate <- lift (buildEmailTemplate name_text industry_text customContent) ;;
  deliveryResult <- emailClient_emails_send
    {| from := EMAIL_FROM (CONFIG w);
       to := [email];
       subject := "🚀 " ++ name_text ++ ", Welcome to the Innovation Revolution!";
       html := emailTemplate |} ;;
  ret deliveryResult.

Arguments generateFallbackMessage : simpl never.
Arguments email_html : simpl never.
Arguments aiFetchInit : simpl never.

(** Main request handler. *)
Definition requestHandler (request : Request) : Async Response :=
  if String.eqb (method request) "OPTIONS" then
    ret {| status := 200; headers := HTTP_HEADERS.CORS; body := None |}
  else
    try_catch
      (requestBody <- lift (json request) ;;
       emailResult <- processEmailDelivery requestBody ;;
       data <- lift (member emailResult "data") ;;
       messageId <- lift (if nullish data then Normal JUndefined else member data "id") ;;
       ret {| status := 200;
              headers := spread (spread [] HTTP_HEADERS.JSON) HTTP_HEADERS.CORS;
              body := Some (JSON_stringify
                        [ ("success", JBool true);
                          ("messageId", messageId);
                          ("status", JStr "delivered") ]) |})
      (fun error =>
         w <- ask ;;
         ret {| status := 500;
                headers := spread (spread [] HTTP_HEADERS.JSON) HTTP_HEADERS.CORS;
                body := Some (JSON_stringify
                          [ ("success", JBool false);
                            ("error", JStr (err_message error));
                            ("timestamp", JStr (Date_toISOString w)) ]) |}).

(** [serve(requestHandler)]: one request against a world; the outcome of
    the handler and the external calls it made. *)
Definition serve (w : World) (request : Request) : Completion Response * list Event :=
  requestHandler request w [].

(** ** Vocabulary of the interface, for the statements below *)

(** The success response of the interface:
    200 with [{ success: true, messageId, status: delivered }]. *)
Definition success_response (messageId : string) : Response :=
  {| status := 200;
     headers := (HTTP_HEADERS.JSON ++ HTTP_HEADERS.CORS)%list;
     body := Some (JObj [ ("success", JBool true);
                          ("messageId", JStr messageId);
                          ("status", JStr "delivered") ]) |}.

(** The failure response of the interface:
    500 with [{ success: false, error, timestamp }]. *)
Definition failure_response (error timestamp : string) : Response :=
  {| status := 500;
     headers := (HTTP_HEADERS.JSON ++ HTTP_HEADERS.CORS)%list;
     body := Some (JObj [ ("success", JBool false);
                          ("error", JStr error);
                          ("timestamp", JStr timestamp) ]) |}.

(** A request body as the type [EmailRequest] describes it. *)
Definition EmailRequest (name email industry : string) : JSValue :=
  JObj [ ("name", JStr name); ("email", JStr email); ("industry", JStr industry) ].

(** The three fields as [processEmailDelivery] comes to use them: [name]
    and [industry] as interpolated text, [email] as it is. *)
Definition lead_fields (requestData : JSValue) : Completion (string * JSValue * string) :=
  cbind (destructure requestData) (fun fields =>
  let '(name, email, industry) := fields in
  cbind (ToString name) (fun name_text =>
  cbind (ToString industry) (fun industry_text =>
  Normal (name_text, email, industry_text)))).

(** The mail that carries [message] to [email]. *)
Definition welcome_mail (w : World) (email : JSValue) (name_text industry_text message : string)
  : EmailPayload :=
  {| from := EMAIL_FROM (CONFIG w);
     to := [email];
     subject := "🚀 " ++ name_text ++ ", Welcome to the Innovation Revolution!";
     html := email_html industry_text (replace_newlines message) |}.

(** The call to the text-generation API, as an event. *)
Definition ai_call (w : World) (name_text industry_text : string) : Event :=
  EvFetch OPENAI_URL (aiFetchInit w name_text industry_text).

(** What the text-generation API answers to that call. *)
Definition ai_reply (w : World) (name_text industry_text : string) : Completion FetchResponse :=
  net_fetch w OPENAI_URL (aiFetchInit w name_text industry_text).

(** What the mail client answers to a mail. *)
Definition delivery_reply (w : World) (mail : EmailPayload) : Completion JSValue :=
  resend_emails_send w (RESEND_KEY (CONFIG w)) mail.

(** The text of the first completion of a reply that has the shape of
    [AIResponse]: [{ choices: [{ message: { content: string } }, ...] }]. *)
Definition completion_text (responseData : JSValue) : option string :=
  match responseData with
  | JObj reply =>
      match own "choices" reply with
      | Some (JArr (JObj first :: _)) =>
          match own "message" first with
          | Some (JObj message) =>
              match own "content" message with
              | Some (JStr text) => Some text
              | _ => None
              end
          | _ => None
          end
      | _ => None
      end
  | _ => None
  end.

(** The text-generation step failed: the request was rejected (network
    error), the reply is not JSON, or the reply is malformed or lacks the
    text of a first completion. *)
Definition AIFailed (reply : Completion FetchResponse) : Prop :=
  match reply with
  | Throw _ => True
  | Normal response =>
      match response_json response with
      | Throw _ => True
      | Normal responseData => completion_text responseData = None
      end
  end.

(** The failures the handler recovers from: a rejected request, a reply
    that is not JSON, a reply on which the lookup of
    [choices[0].message.content] throws, or one where it finds nothing
    truthy (no first completion, no message, no content, [null], the empty
    string). *)
Inductive AIUnavailable : Completion FetchResponse -> Prop :=
| ai_network_error (e : JSError) :
    AIUnavailable (Throw e)
| ai_reply_not_json (e : JSError) :
    AIUnavailable (Normal {| response_json := Throw e |})
| ai_lookup_throws (responseData : JSValue) (e : JSError) :
    first_completion_content responseData = Throw e ->
    AIUnavailable (Normal {| response_json := Normal responseData |})
| ai_no_content (responseData content : JSValue) :
    first_completion_content responseData = Normal content ->
    truthy content = false ->
    AIUnavailable (Normal {| response_json := Normal responseData |}).

(** The delivery call itself failed to return a result object: the client
    rejected, or resolved to [null] or [undefined]. *)
Definition delivery_call_failed (reply : Completion JSValue) : Prop :=
  match reply with
  | Throw _ => True
  | Normal result => nullish result = true
  end.

(** The mail client reports a delivery: its result carries the identifier
    of the message in [data.id], a non-empty string. *)
Definition Delivered (result : JSValue) (id : string) : Prop :=
  exists data,
    member result "data" = Normal data /\
    member data "id" = Normal (JStr id) /\
    id <> EmptyString.

(** The mail client reports an error of the delivery API: no [data], and
    an [error] object in its place. *)
Definition DeliveryError (result : JSValue) : Prop :=
  exists error,
    member result "data" = Normal JNull /\
    member result "error" = Normal error /\
    truthy error = true.

(** The 200 response with whatever [emailResult.data?.id] evaluated to;
    [JSON.stringify] leaves the property out when that is [undefined]. *)
Definition ok_response (messageId : JSValue) : Response :=
  {| status := 200;
     headers := (HTTP_HEADERS.JSON ++ HTTP_HEADERS.CORS)%list;
     body := Some (JSON_stringify [ ("success", JBool true);
                                    ("messageId", messageId);
                                    ("status", JStr "delivered") ]) |}.

(** The character that [/\n/g] matches. *)
Definition is_line_feed (c : ascii) : bool := Ascii.eqb c (ascii_of_nat 10).

(** The three ways a run of the pipeline can go. *)
Inductive PipelineRun (v : JSValue) (w : World) : Completion JSValue * list Event -> Prop :=
| run_no_fields (e : JSError) :
    lead_fields v = Throw e ->
    PipelineRun v w (Throw e, [])
| run_no_text (name_text industry_text : string) (email : JSValue) (e : JSError) :
    lead_fields v = Normal (name_text, email, industry_text) ->
    PipelineRun v w (Throw e, [ai_call w name_text industry_text])
| run_sent (name_text industry_text message : string) (email : JSValue) :
    lead_fields v = Normal (name_text, email, industry_text) ->
    createPersonalizedWelcomeMessage name_text industry_text w []
    = (Normal (JStr message), [ai_call w name_text industry_text]) ->
    PipelineRun v w
      (delivery_reply w (welcome_mail w email name_text industry_text message),
       [ai_call w name_text industry_text;
        EvSend (welcome_mail w email name_text industry_text message)]).

End Handler.

(* ===================================================================== *)
(** * The field validator: [src/lib/validation.ts]                       *)
(* ===================================================================== *)

Module Validation.

(** The record the form submits; [LeadCaptureForm.tsx] declares it as
    [FormData], the specification calls it LeadInput. *)
Record FormData : Type := mkFormData {
  name : string;
  email : string;
  industry : string
}.

Definition LeadInput : Type := FormData.

(** Modelled from the spec: the type [ValidationError] of
    [src/lib/validation.ts], a field name with its message. *)
Record ValidationError : Type := mkValidationError {
  field : string;
  message : string
}.

(** The eight industry identifiers, the [value]s of [INDUSTRY_OPTIONS]. *)
Definition INDUSTRIES : list string :=
  [ "technology"; "healthcare"; "finance"; "education";
    "retail"; "manufacturing"; "consulting"; "other" ].

(** White space, for [trim] and the address shape: the space and the
    control characters from tab to carriage return. *)
Definition is_space (c : ascii) : bool :=
  let n := nat_of_ascii c in
  ((n =? 32) || ((9 <=? n) && (n <=? 13)))%nat.

Fixpoint trim_start (l : list ascii) : list ascii :=
  match l with
  | c :: rest => if is_space c then trim_start rest else l
  | [] => []
  end.

(** [s.trim()] *)
Definition trim (s : string) : string :=
  string_of_list_ascii
    (rev (trim_start (rev (trim_start (list_ascii_of_string s))))).

Definition is_at (c : ascii) : bool := Ascii.eqb c "@"%char.
Definition is_dot (c : ascii) : bool := Ascii.eqb c "."%char.

(** Splits at the first [@]. *)
Fixpoint split_at_sign (l : list ascii) : option (list ascii * list ascii) :=
  match l with
  | [] => None
  | c :: rest =>
      if is_at c then Some ([], rest)
      else match split_at_sign rest with
           | Some (local, domain) => Some (c :: local, domain)
           | None => None
           end
  end.

(** Modelled from the spec: the email-address shape, local@domain with at
    least one dot in the domain. Read as the usual pattern: no white space
    and a single [@], something before it, and after it a dot that has
    something on both sides. *)
Definition email_shape (s : string) : bool :=
  let l := list_ascii_of_string s in
  negb (existsb is_space l) &&
  match split_at_sign l with
  | Some (local, domain) =>
      negb (match local with [] => true | _ => false end) &&
      negb (existsb is_at domain) &&
      existsb is_dot (removelast (tl domain))
  | None => false
  end.

(** Modelled from the spec: the rule for [name]. It is required, and its
    trimmed length must lie in 2..50. *)
Definition validateName (name : string) : list ValidationError :=
  let trimmed := trim name in
  if String.eqb trimmed EmptyString then
    [ {| field := "name"; message := "Name is required" |} ]
  else if ((String.length trimmed <? 2) || (50 <? String.length trimmed))%nat then
    [ {| field := "name"; message := "Name must be between 2 and 50 characters" |} ]
  else [].

(** Modelled from the spec: the rule for [email]. *)
Definition validateEmail (email : string) : list ValidationError :=
  if email_shape email then []
  else [ {| field := "email"; message := "Please enter a valid email address" |} ].

(** Modelled from the spec: the rule for [industry]. *)
Definition validateIndustry (industry : string) : list ValidationError :=
  if existsb (String.eqb industry) INDUSTRIES then []
  else [ {| field := "industry"; message := "Please select an industry" |} ].

(** Modelled from the spec: [validateLeadForm] of [src/lib/validation.ts],
    which is imported by the form and not part of the sources. The rules
    and messages are those of section 4.1: the name is required and its
    trimmed length lies in 2..50, the email has the address shape, the
    industry is one of the eight identifiers; errors come in the order
    name, email, industry. *)
Definition validateLeadForm (data : LeadInput) : list ValidationError :=
  validateName (name data) ++ validateEmail (email data) ++ validateIndustry (industry data).



(** ** A call of the validator, with what it could touch *)

(** Modelled from the spec: what a call of the validator has within reach.
    The input is an object the caller keeps (the form's [formData]); the
    callee could overwrite its fields. Beyond it lies the outside (console,
    network, storage), kept as the list of what was written there. *)
Record ValidatorWorld : Type := mkValidatorWorld {
  input : LeadInput;
  outside : list string
}.

(** A computation that may read and write the world. *)
Definition Effect (A : Type) : Type := ValidatorWorld -> A * ValidatorWorld.

Definition pure {A} (a : A) : Effect A := fun w => (a, w).

Definition andThen {A B} (m : Effect A) (k : A -> Effect B) : Effect B :=
  fun w => let (a, w') := m w in k a w'.

(** [input.field] *)
Definition readField (field : LeadInput -> string) : Effect string :=
  fun w => (field (input w), w).

(** [input.name = value] *)
Definition writeName (value : string) : Effect unit :=
  fun w => (tt, {| input := {| name := value;
                               email := email (input w);
                               industry := industry (input w) |};
                   outside := outside w |}).

(** Output: a log line, a request. *)
Definition emit (line : string) : Effect unit :=
  fun w => (tt, {| input := input w; outside := (outside w ++ [line])%list |}).

(** Modelled from the spec: a call [validate(input)] of section 4.1, as a
    computation on the world. [src/lib/validation.ts] is not among the
    sources; by the spec the function is side-effect-free, never mutates
    its input and does no I/O, so the call reads the three fields and does
    nothing else, and its errors are those of the three rules in the order
    name, email, industry. *)
Definition validate : Effect (list ValidationError) :=
  andThen (readField name) (fun name =>
  andThen (readField email) (fun email =>
  andThen (readField industry) (fun industry =>
  pure (validateName name ++ validateEmail email ++ validateIndustry industry)%list))).

(** A validator the spec rules out, for comparison: it reports the same
    errors, and tidies the name in place and logs while it is at it. *)
Definition tidying_validate : Effect (list ValidationError) :=
  andThen (readField name) (fun name =>
  andThen (writeName (trim name)) (fun _ =>
  andThen (emit "validated") (fun _ =>
  andThen (readField email) (fun email =>
  andThen (readField industry) (fun industry =>
  pure (validateName name ++ validateEmail email ++ validateIndustry industry)%list))))).

End Validation.

(* ===================================================================== *)
(** * The form: [src/components/LeadCaptureForm.tsx]                      *)
(* ===================================================================== *)

Module Form.
Import JS.
Export Validation.

Record LeadRecord : Type := mkLeadRecord {
  lead_name : string;
  lead_email : string;
  lead_industry : string;
  submitted_at : string
}.

Definition INITIAL_FORM_STATE : FormData :=
  {| name := EmptyString; email := EmptyString; industry := EmptyString |}.

(** The five [useState] cells of the component. *)
Record State : Type := mkState {
  formData : FormData;
  errors : list ValidationError;
  isSubmitted : bool;
  leadRecords : list LeadRecord;
  isLoading : bool
}.

Definition setFormData (f : FormData -> FormData) (s : State) : State :=
  {| formData := f (formData s); errors := errors s; isSubmitted := isSubmitted s;
     leadRecords := leadRecords s; isLoading := isLoading s |}.

Definition setErrors (f : list ValidationError -> list ValidationError) (s : State) : State :=
  {| formData := formData s; errors := f (errors s); isSubmitted := isSubmitted s;
     leadRecords := leadRecords s; isLoading := isLoading s |}.

Definition setIsSubmitted (b : bool) (s : State) : State :=
  {| formData := formData s; errors := errors s; isSubmitted := b;
     leadRecords := leadRecords s; isLoading := isLoading s |}.

Definition setLeadRecords (f : list LeadRecord -> list LeadRecord) (s : State) : State :=
  {| formData := formData s; errors := errors s; isSubmitted := isSubmitted s;
     leadRecords := f (leadRecords s); isLoading := isLoading s |}.

Definition setIsLoading (b : bool) (s : State) : State :=
  {| formData := formData s; errors := errors s; isSubmitted := isSubmitted s;
     leadRecords := leadRecords s; isLoading := b |}.

(** [{ ...prev, [fieldName]: value }] on the three fields of the form; the
    inputs of the form pass no other field name. *)
Definition with_field (prev : FormData) (fieldName value : string) : FormData :=
  if String.eqb fieldName "name" then
    {| name := value; email := email prev; industry := industry prev |}
  else if String.eqb fieldName "email" then
    {| name := name prev; email := value; industry := industry prev |}
  else if String.eqb fieldName "industry" then
    {| name := name prev; email := email prev; industry := value |}
  else prev.

Definition updateFormField (fieldName value : string) (s : State) : State :=
  let s1 := setFormData (fun prev => with_field prev fieldName value) s in
  if existsb (fun error => String.eqb (field error) fieldName) (errors s) then
    setErrors (filter (fun error => negb (String.eqb (field error) fieldName))) s1
  else s1.

(** What the component reaches outside for: the edge function behind
    [supabase.functions.invoke] (a [Throw] is a rejected promise) and the clock. *)
Record Env : Type := mkEnv {
  functions_invoke : string -> FormData -> Completion JSValue;
  Date_toISOString : string
}.

(** [const { error } = await supabase.functions.invoke(...)], then the test
    of [error]; the [catch] clause logs and throws the same error again. *)
Definition sendConfirmationEmail (env : Env) (leadData : FormData) : Completion unit :=
  match
    cbind (functions_invoke env "send-confirmation" leadData) (fun result =>
    cbind (match result with
           | JUndefined =>
               Throw (TypeError "Cannot destructure property 'error' of '(intermediate value)' as it is undefined.")
           | JNull =>
               Throw (TypeError "Cannot destructure property 'error' of '(intermediate value)' as it is null.")
           | _ => member result "error"
           end) (fun error =>
    if truthy error
    then Throw (mkError "Error" "Email service unavailable")
    else Normal tt))
  with
  | Normal u => Normal u
  | Throw error => Throw error
  end.

Section Submission.

(** [validateLeadForm], imported from [src/lib/validation.ts]. *)
Variable validateLeadForm : FormData -> list ValidationError.

Variable env : Env.

(** Edits the user makes in the inputs while the confirmation call is
    pending: the submit button is disabled then, the inputs are not. *)
Variable typed : list (string * string).

Definition while_pending (s : State) : State :=
  fold_left (fun st edit => updateFormField (fst edit) (snd edit) st) typed s.

(** The submit handler. [formData] inside the handler is the value the
    closure captured when the form was rendered; the setters act on the
    state as it is when they run. The [finally] clause runs on every path. *)
Definition handleFormSubmission (s : State) : State :=
  let formData := formData s in
  let s := setIsLoading true s in
  let finally := setIsLoading false in
  let validationErrors := validateLeadForm formData in
  let s := setErrors (fun _ => validationErrors) s in
  match validationErrors with
  | [] =>
      let s := while_pending s in
      match sendConfirmationEmail env formData with
      | Normal _ =>
          let newLeadRecord :=
            {| lead_name := name formData;
               lead_email := email formData;
               lead_industry := industry formData;
               submitted_at := Date_toISOString env |} in
          let s := setLeadRecords (fun prev => (prev ++ [newLeadRecord])%list) s in
          let s := setIsSubmitted true s in
          let s := setFormData (fun _ => INITIAL_FORM_STATE) s in
          finally s
      | Throw error => finally s
      end
  | _ :: _ => finally s
  end.

Definition resetToNewSubmission (s : State) : State :=
  setErrors (fun _ => [])
    (setFormData (fun _ => INITIAL_FORM_STATE)
       (setIsSubmitted false s)).

End Submission.

(** ** Vocabulary for the statements below *)

(** The form data after the edits [typed], in order. *)
Definition typed_into (typed : list (string * string)) (data : FormData) : FormData :=
  fold_left (fun d edit => with_field d (fst edit) (snd edit)) typed data.

(** The call of the confirmation handler failed: the promise rejected, it
    resolved to nothing, or the result reports an error. *)
Inductive InvokeFailed : Completion JSValue -> Prop :=
| invoke_rejected (e : JSError) :
    InvokeFailed (Throw e)
| invoke_no_result (result : JSValue) :
    nullish result = true ->
    InvokeFailed (Normal result)
| invoke_error_reported (result error : JSValue) :
    member result "error" = Normal error ->
    truthy error = true ->
    InvokeFailed (Normal result).

(** The call succeeded: a result without an error. *)
Inductive InvokeSucceeded : Completion JSValue -> Prop :=
| invoke_ok (result error : JSValue) :
    member result "error" = Normal error ->
    truthy error = false ->
    InvokeSucceeded (Normal result).

(** A form as the user sees it before a submission. *)
Definition fresh_form (data : FormData) (records : list LeadRecord) : State :=
  {| formData := data; errors := []; isSubmitted := false;
     leadRecords := records; isLoading := false |}.

Definition john_doe : FormData :=
  {| name := "John Doe"; email := "john@example.com"; industry := "technology" |}.

(** The edge function answered with a status other than 2xx. *)
Definition handler_failed : Env :=
  {| functions_invoke := fun _ _ =>
       Normal (JObj [ ("data", JNull);
                      ("error", JObj [ ("name", JStr "FunctionsHttpError");
                                       ("message", JStr "Edge Function returned a non-2xx status code") ]) ]);
     Date_toISOString := "2025-01-01T00:00:00.000Z" |}.

Definition handler_succeeded : Env :=
  {| functions_invoke := fun _ _ =>
       Normal (JObj [ ("data", JObj [ ("success", JBool true);
                                      ("messageId", JStr "49a3999c-0ce1-4ea6-ab68-afcd6dc2e794");
                                      ("status", JStr "delivered") ]);
                      ("error", JNull) ]);
     Date_toISOString := "2025-01-01T00:00:00.000Z" |}.

(** ** The rest of the component *)

(** [errors.find(error => error.field === fieldName)?.message]: the message
    of the first error of the field, [None] for [undefined]. *)
Definition getValidationError (s : State) (fieldName : string) : option string :=
  match find (fun error => String.eqb (field error) fieldName) (errors s) with
  | Some error => Some (message error)
  | None => None
  end.

(** What the component renders: the success view once [isSubmitted] is
    set, the form otherwise. *)
Inductive View : Type := FormView | SuccessView.

Definition view (s : State) : View :=
  if isSubmitted s then SuccessView else FormView.

(** The number shown in the success view, [leadRecords.length]. *)
Definition memberNumber (s : State) : nat := length (leadRecords s).

(** The initial values of the five [useState] cells. *)
Definition INITIAL_STATE : State :=
  {| formData := INITIAL_FORM_STATE; errors := []; isSubmitted := false;
     leadRecords := []; isLoading := false |}.

(** What the user can do. The form view offers its three inputs, each
    wired to [updateFormField], and the submit button, wired to
    [handleFormSubmission]; the success view offers one button, wired to
    [resetToNewSubmission]. A submission carries the world it runs in and
    the edits typed while its call is pending. *)
Inductive Action : Type :=
| Edit (fieldName value : string)
| SubmitForm (env : Env) (typed : list (string * string))
| AddAnotherMember.

Section Session.

Variable validateLeadForm : FormData -> list ValidationError.

(** One action on the rendered view; an action the view does not offer
    changes nothing. *)
Definition act (s : State) (a : Action) : State :=
  match view s, a with
  | FormView, Edit fieldName value => updateFormField fieldName value s
  | FormView, SubmitForm env typed => handleFormSubmission validateLeadForm env typed s
  | SuccessView, AddAnotherMember => resetToNewSubmission s
  | _, _ => s
  end.

Definition run (s : State) (actions : list Action) : State :=
  fold_left act actions s.

(** A session of the mounted component. *)
Definition session (actions : list Action) : State := run INITIAL_STATE actions.

End Session.

Definition is_submission (a : Action) : bool :=
  match a with
  | SubmitForm _ _ => true
  | _ => false
  end.

(** The form data a lead record was made from. *)
Definition lead_data (r : LeadRecord) : FormData :=
  {| name := lead_name r; email := lead_email r; industry := lead_industry r |}.

(** What holds of the state between any two actions, for a given validator. *)
Definition settled (validateLeadForm : FormData -> list ValidationError) (s : State) : Prop :=
  isLoading s = false /\
  (isSubmitted s = true ->
   formData s = INITIAL_FORM_STATE /\ errors s = [] /\ leadRecords s <> []) /\
  Forall (fun record => validateLeadForm (lead_data record) = []) (leadRecords s).

End Form.

(* ===================================================================== *)
(** * Concrete requests and worlds                                       *)
(* ===================================================================== *)

Module Scenarios.
Import JS Handler.

Definition post (requestBody : JSValue) : Request :=
  {| method := "POST"; json := Normal requestBody |}.

(** The request of the end-to-end scenario. *)
Definition john : JSValue := EmailRequest "John Doe" "john@example.com" "technology".

(** A body that fails every rule of the validator. *)
Definition invalid_lead : JSValue := EmailRequest EmptyString "bad" "astrology".

(** A world in which the text-generation API answers [ai] and the mail
    client answers [mailer], whatever they are sent; no environment
    variable is set. *)
Definition world (ai : Completion FetchResponse) (mailer : Completion JSValue) : World :=
  {| Deno_env_get := fun _ => None;
     net_fetch := fun _ _ => ai;
     resend_emails_send := fun _ _ => mailer;
     Date_toISOString := "2025-01-01T00:00:00.000Z" |}.

Definition reply_with_content (content : JSValue) : Completion FetchResponse :=
  Normal {| response_json :=
    Normal (JObj [ ("choices", JArr [ JObj [ ("message", JObj [ ("content", content) ]) ] ]) ]) |}.

(** The network is down. *)
Definition ai_down : Completion FetchResponse :=
  Throw (TypeError "error sending request for url (https://api.openai.com/v1/chat/completions)").

(** The API answers with an error document, which has no [choices]. *)
Definition ai_error_document : Completion FetchResponse :=
  Normal {| response_json :=
    Normal (JObj [ ("error", JObj [ ("message", JStr "Incorrect API key provided");
                                    ("type", JStr "invalid_request_error") ]) ]) |}.

(** A malformed reply: the content of the first completion is a list of
    content parts where the handler expects a string. *)
Definition ai_content_parts : Completion FetchResponse :=
  reply_with_content
    (JArr [ JObj [ ("type", JStr "text"); ("text", JStr "Welcome aboard!") ] ]).

(** The reply the handler hopes for. *)
Definition ai_text : Completion FetchResponse :=
  reply_with_content (JStr "Welcome aboard, John!").

(** The mail client reports a delivery. *)
Definition mail_sent : Completion JSValue :=
  Normal (JObj [ ("data", JObj [ ("id", JStr "49a3999c-0ce1-4ea6-ab68-afcd6dc2e794") ]);
                 ("error", JNull) ]).

(** The mail client reports an error of the delivery API, as it does for
    the key [invalid_key] that [CONFIG] falls back to. *)
Definition mail_refused : Completion JSValue :=
  Normal (JObj [ ("data", JNull);
                 ("error", JObj [ ("statusCode", JNum "400");
                                  ("message", JStr "API key is invalid");
                                  ("name", JStr "validation_error") ]) ]).

(** The mail client rejects. *)
Definition mail_unreachable : Completion JSValue :=
  Throw (TypeError "error sending request for url (https://api.resend.com/emails)").

End Scenarios.

(* ===================================================================== *)
(** * Properties of the confirmation handler                             *)
(* ===================================================================== *)

Module HandlerFacts.
Import JS Handler Scenarios.
Local Open Scope async_scope.

(** ** Headers *)

Lemma response_headers : spread (spread [] HTTP_HEADERS.JSON) HTTP_HEADERS.CORS = (HTTP_HEADERS.JSON ++ HTTP_HEADERS.CORS)%list.
Proof. reflexivity. Qed.

(** ** Content generation *)

(** The generation step always makes its one call and always returns. *)
Lemma createPersonalizedWelcomeMessage_returns name_text industry_text w t :
  exists content,
    createPersonalizedWelcomeMessage name_text industry_text w t
    = (Normal content, (t ++ [ai_call w name_text industry_text])%list).
Proof.
  unfold createPersonalizedWelcomeMessage, try_catch, bind, ask, fetch, lift, ret, ai_call.
  destruct (net_fetch w OPENAI_URL (aiFetchInit w name_text industry_text)) as [r | e];
    [ destruct (response_json r) as [d | e];
      [ destruct (first_completion_content d) as [c | e] | ] | ];
    eexists; reflexivity.
Qed.

(** On each failure the handler recovers from, the result is the fallback. *)
Lemma createPersonalizedWelcomeMessage_fallback name_text industry_text w t :
  AIUnavailable (ai_reply w name_text industry_text) ->
  createPersonalizedWelcomeMessage name_text industry_text w t
  = (Normal (JStr (generateFallbackMessage name_text industry_text)),
     (t ++ [ai_call w name_text industry_text])%list).
Proof.
  unfold ai_reply, createPersonalizedWelcomeMessage, try_catch, bind, ask, fetch, lift, ret, ai_call.
  intros H. inversion H as [e Hr | e Hr | d e Hd Hr | d c Hd Hc Hr]; simpl.
  - reflexivity.
  - reflexivity.
  - now rewrite Hd.
  - now rewrite Hd, Hc.
Qed.

(** A truthy content is returned as it is. *)
Lemma createPersonalizedWelcomeMessage_content name_text industry_text w t r d c :
  ai_reply w name_text industry_text = Normal r ->
  response_json r = Normal d ->
  first_completion_content d = Normal c ->
  truthy c = true ->
  createPersonalizedWelcomeMessage name_text industry_text w t
  = (Normal c, (t ++ [ai_call w name_text industry_text])%list).
Proof.
  unfold ai_reply, createPersonalizedWelcomeMessage, try_catch, bind, ask, fetch, lift, ret, ai_call.
  intros Hr Hj Hd Hc. now rewrite Hr, Hj, Hd, Hc.
Qed.

(** ** The delivery pipeline *)

(** Case analysis on the three steps that read the fields of [v]. *)
Ltac read_fields v :=
  unfold lead_fields, processEmailDelivery, bind, ask, lift in *;
  destruct (destructure v) as [[[n em] i] | e1]; simpl in *;
  [ destruct (ToString n) as [sn | e2]; simpl in *;
    [ destruct (ToString i) as [si | e3]; simpl in * | ] | ].

(** When the fields cannot be read or interpolated, nothing is called. *)
Lemma processEmailDelivery_no_fields v w t e :
  lead_fields v = Throw e ->
  processEmailDelivery v w t = (Throw e, t).
Proof.
  intros H. read_fields v; congruence.
Qed.

(** With generated text, the mail goes out and the client's answer is the result. *)
Lemma processEmailDelivery_text v w t name_text email industry_text message :
  lead_fields v = Normal (name_text, email, industry_text) ->
  createPersonalizedWelcomeMessage name_text industry_text w t
  = (Normal (JStr message), (t ++ [ai_call w name_text industry_text])%list) ->
  let mail := welcome_mail w email name_text industry_text message in
  processEmailDelivery v w t
  = (delivery_reply w mail,
     (t ++ [ai_call w name_text industry_text; EvSend mail])%list).
Proof.
  intros H Hc. read_fields v; try congruence.
  injection H as -> -> ->. rewrite Hc. simpl.
  unfold emailClient_emails_send, delivery_reply, welcome_mail, ret.
  rewrite <- app_assoc. simpl.
  destruct (resend_emails_send _ _ _); reflexivity.
Qed.

(** A generated content that is not a string stops the pipeline before the
    mail client is called: interpolating it or calling [replace] on it throws. *)
Lemma processEmailDelivery_no_text v w t name_text email industry_text content :
  lead_fields v = Normal (name_text, email, industry_text) ->
  createPersonalizedWelcomeMessage name_text industry_text w t
  = (Normal content, (t ++ [ai_call w name_text industry_text])%list) ->
  (forall message, content <> JStr message) ->
  exists e,
    processEmailDelivery v w t = (Throw e, (t ++ [ai_call w name_text industry_text])%list).
Proof.
  intros H Hc Hns. read_fields v; try congruence.
  injection H as -> -> ->. rewrite Hc.
  destruct (ToString content) as [sc | e4]; [ | eexists; reflexivity ].
  destruct content; try (eexists; reflexivity).
  exfalso. eapply Hns. reflexivity.
Qed.

Lemma processEmailDelivery_runs v w : PipelineRun v w (processEmailDelivery v w []).
Proof.
  destruct (lead_fields v) as [[[sn em] si] | e] eqn:Hf.
  - destruct (createPersonalizedWelcomeMessage_returns sn si w []) as [c Hc].
    simpl in Hc.
    assert (Hdec : (exists s, c = JStr s) \/ (forall s, c <> JStr s)).
    { destruct c; try (right; intros s; discriminate). left; eexists; reflexivity. }
    destruct Hdec as [[s ->] | Hns].
    + rewrite (processEmailDelivery_text v w [] sn em si s Hf Hc). simpl.
      now apply run_sent.
    + destruct (processEmailDelivery_no_text v w [] sn em si c Hf Hc Hns) as [e He].
      rewrite He. simpl. now apply run_no_text with (email := em).
  - rewrite (processEmailDelivery_no_fields v w [] e Hf). now apply run_no_fields.
Qed.

(** ** The request handler *)

Lemma serve_options w request :
  String.eqb (method request) "OPTIONS" = true ->
  serve w request = (Normal {| status := 200; headers := HTTP_HEADERS.CORS; body := None |}, []).
Proof. intros H. unfold serve, requestHandler. now rewrite H. Qed.

Lemma serve_body_rejected w request e :
  String.eqb (method request) "OPTIONS" = false ->
  json request = Throw e ->
  serve w request
  = (Normal (failure_response (err_message e) (Date_toISOString w)), []).
Proof.
  intros H Hj. unfold serve, requestHandler. rewrite H.
  unfold try_catch, bind, lift. now rewrite Hj.
Qed.

(** Whatever the pipeline throws ends in the [catch] clause. *)
Lemma serve_pipeline_throws w request v e t :
  String.eqb (method request) "OPTIONS" = false ->
  json request = Normal v ->
  processEmailDelivery v w [] = (Throw e, t) ->
  serve w request
  = (Normal (failure_response (err_message e) (Date_toISOString w)), t).
Proof.
  intros H Hj Hp. unfold serve, requestHandler. rewrite H.
  unfold try_catch, bind, lift. now rewrite Hj, Hp.
Qed.

(** So does reading [data] from a result that is [null] or [undefined]. *)
Lemma serve_result_nullish w request v r t :
  String.eqb (method request) "OPTIONS" = false ->
  json request = Normal v ->
  processEmailDelivery v w [] = (Normal r, t) ->
  nullish r = true ->
  exists e,
    serve w request
    = (Normal (failure_response (err_message e) (Date_toISOString w)), t).
Proof.
  intros H Hj Hp Hn. unfold serve, requestHandler. rewrite H.
  unfold try_catch, bind, lift. rewrite Hj, Hp.
  destruct r; try discriminate; eexists; reflexivity.
Qed.

(** Any other result is answered with 200. *)
Lemma serve_result w request v r t :
  String.eqb (method request) "OPTIONS" = false ->
  json request = Normal v ->
  processEmailDelivery v w [] = (Normal r, t) ->
  nullish r = false ->
  exists data messageId,
    member r "data" = Normal data /\
    (if nullish data then Normal JUndefined else member data "id") = Normal messageId /\
    serve w request = (Normal (ok_response messageId), t).
Proof.
  intros H Hj Hp Hn. unfold serve, requestHandler. rewrite H.
  unfold try_catch, bind, lift. rewrite Hj, Hp.
  assert (Hd : exists data, member r "data" = Normal data).
  { destruct r; try discriminate; eexists; reflexivity. }
  destruct Hd as [data Hd]. rewrite Hd.
  assert (Hi : exists x, (if nullish data then Normal JUndefined else member data "id") = Normal x).
  { destruct data; eexists; reflexivity. }
  destruct Hi as [x Hi]. rewrite Hi.
  exists data, x. repeat split; first [ reflexivity | assumption ].
Qed.

Lemma serve_trace w request v :
  String.eqb (method request) "OPTIONS" = false ->
  json request = Normal v ->
  snd (serve w request) = snd (processEmailDelivery v w []).
Proof.
  intros H Hj.
  destruct (processEmailDelivery v w []) as [[r | e] t] eqn:Hp.
  - destruct (nullish r) eqn:Hn.
    + destruct (serve_result_nullish w request v r t H Hj Hp Hn) as [e ->]. reflexivity.
    + destruct (serve_result w request v r t H Hj Hp Hn) as (d & x & _ & _ & ->). reflexivity.
  - now rewrite (serve_pipeline_throws w request v e t H Hj Hp).
Qed.

(** Once the mail is out, the answer is decided by the client's reply. *)
Lemma serve_after_delivery w request v mail t :
  String.eqb (method request) "OPTIONS" = false ->
  json request = Normal v ->
  processEmailDelivery v w [] = (delivery_reply w mail, t) ->
  exists response,
    serve w request = (Normal response, t) /\
    (status response = 200 \/
     (status response = 500 /\ delivery_call_failed (delivery_reply w mail))).
Proof.
  intros H Hj Hp. destruct (delivery_reply w mail) as [r | e] eqn:Hr.
  - destruct (nullish r) eqn:Hn.
    + destruct (serve_result_nullish w request v r t H Hj Hp Hn) as [e ->].
      eexists; split; [ reflexivity | right; split; [ reflexivity | exact Hn ] ].
    + destruct (serve_result w request v r t H Hj Hp Hn) as (d & x & _ & _ & ->).
      eexists; split; [ reflexivity | now left ].
  - rewrite (serve_pipeline_throws w request v e t H Hj Hp).
    eexists; split; [ reflexivity | right; split; [ reflexivity | exact I ] ].
Qed.

(** A mail in the trace means the pipeline ran up to the mail client. *)
Lemma serve_sent_inv w request mail :
  In (EvSend mail) (snd (serve w request)) ->
  exists v t,
    String.eqb (method request) "OPTIONS" = false /\
    json request = Normal v /\
    processEmailDelivery v w [] = (delivery_reply w mail, t).
Proof.
  intros Hin.
  destruct (String.eqb (method request) "OPTIONS") eqn:H.
  { rewrite (serve_options w request H) in Hin. destruct Hin. }
  destruct (json request) as [v | e] eqn:Hj.
  2:{ rewrite (serve_body_rejected w request e H Hj) in Hin. destruct Hin. }
  rewrite (serve_trace w request v H Hj) in Hin.
  exists v. pose proof (processEmailDelivery_runs v w) as Hrun.
  inversion Hrun as [e Hf Heq | n i em e Hf Heq | n i s em Hf Hc Heq];
    rewrite <- Heq in Hin; simpl in Hin.
  - destruct Hin.
  - destruct Hin as [Hin | []]. discriminate Hin.
  - destruct Hin as [Hin | [Hin | []]]; [ discriminate Hin | ].
    injection Hin as <-. eexists. repeat split.
Qed.

(** ** The interface of the handler *)

(** C8. A request with method OPTIONS is answered with an empty ([null])
    body carrying the permissive CORS headers, without any external call;
    every other request is answered too, with status 200 or 500, and
    every response carries each of those CORS headers. *)
Theorem every_response_has_cors_headers :
  forall w request,
  exists response t,
    serve w request = (Normal response, t) /\
    (forall header, In header HTTP_HEADERS.CORS -> In header (headers response)) /\
    (if String.eqb (method request) "OPTIONS"
     then body response = None /\ headers response = HTTP_HEADERS.CORS /\ t = []
     else (status response = 200 \/ status response = 500) /\
          headers response = (HTTP_HEADERS.JSON ++ HTTP_HEADERS.CORS)%list).
Proof.
  intros w request.
  destruct (String.eqb (method request) "OPTIONS") eqn:H.
  - rewrite (serve_options w request H). eexists _, _.
    split; [ reflexivity | ]. simpl. split; [ tauto | repeat split ].
  - assert (Hshape : exists t,
               (exists x, serve w request = (Normal (ok_response x), t)) \/
               (exists m, serve w request
                          = (Normal (failure_response m (Date_toISOString w)), t))).
    { destruct (json request) as [v | e] eqn:Hj.
      - destruct (processEmailDelivery v w []) as [[r | e] t] eqn:Hp.
        + destruct (nullish r) eqn:Hn.
          * destruct (serve_result_nullish w request v r t H Hj Hp Hn) as [e He].
            exists t. right. now exists (err_message e).
          * destruct (serve_result w request v r t H Hj Hp Hn) as (d & x & _ & _ & Hs).
            exists t. left. now exists x.
        + exists t. right. exists (err_message e).
          exact (serve_pipeline_throws w request v e t H Hj Hp).
      - exists []. right. exists (err_message e).
        exact (serve_body_rejected w request e H Hj). }
    destruct Hshape as [t [[x ->] | [m ->]]]; eexists _, _;
      (split; [ reflexivity | ]); simpl; intuition.
Qed.

(** C9. A request other than OPTIONS whose body is not valid JSON does not
    crash the handler: the rejection of [request.json()] is answered with
    the 500 failure response (success false, the error's message, the
    timestamp; JSON and CORS headers) and nothing is called; the response
    is the one the same [catch] clause gives to a pipeline that throws
    the same error. *)
Theorem invalid_json_body_is_answered_with_500 :
  forall w request e,
    String.eqb (method request) "OPTIONS" = false ->
    json request = Throw e ->
    serve w request
    = (Normal (failure_response (err_message e) (Date_toISOString w)), []) /\
    (forall header, In header HTTP_HEADERS.CORS ->
       In header (headers (failure_response (err_message e) (Date_toISOString w)))) /\
    (forall request' v t,
       String.eqb (method request') "OPTIONS" = false ->
       json request' = Normal v ->
       processEmailDelivery v w [] = (Throw e, t) ->
       fst (serve w request') = fst (serve w request)).
Proof.
  intros w request e H Hj.
  rewrite (serve_body_rejected w request e H Hj).
  split; [ reflexivity | split ].
  - simpl. tauto.
  - intros request' v t H' Hj' Hp.
    now rewrite (serve_pipeline_throws w request' v e t H' Hj' Hp).
Qed.

Lemma invalid_json_body_is_answered_with_500_witness :
  serve (world ai_down mail_sent)
    {| method := "POST";
       json := Throw (mkError "SyntaxError" "Unexpected token 'h', ...hello... is not valid JSON") |}
  = (Normal (failure_response "Unexpected token 'h', ...hello... is not valid JSON"
               "2025-01-01T00:00:00.000Z"), []).
Proof.
  exact (proj1 (invalid_json_body_is_answered_with_500
                  (world ai_down mail_sent)
                  {| method := "POST";
                     json := Throw (mkError "SyntaxError"
                                      "Unexpected token 'h', ...hello... is not valid JSON") |}
                  (mkError "SyntaxError" "Unexpected token 'h', ...hello... is not valid JSON")
                  eq_refl eq_refl)).
Defined.

(** C3. Whenever the mail went out and the mail client reports the
    delivery with a message identifier, the handler answers 200 with the
    body made of exactly success true, that identifier as messageId, and
    status delivered; the messageId is present and is a non-empty string. *)
Theorem delivery_success_is_answered_with_200 :
  forall w request mail result id,
    In (EvSend mail) (snd (serve w request)) ->
    delivery_reply w mail = Normal result ->
    Delivered result id ->
    fst (serve w request) = Normal (success_response id) /\
    status (success_response id) = 200 /\
    body (success_response id)
    = Some (JObj [ ("success", JBool true);
                   ("messageId", JStr id);
                   ("status", JStr "delivered") ]) /\
    id <> EmptyString.
Proof.
  intros w request mail r id Hin Hr (data & Hd & Hid & Hne).
  destruct (serve_sent_inv w request mail Hin) as (v & t & H & Hj & Hp).
  rewrite Hr in Hp.
  assert (Hn : nullish r = false) by (destruct r; try reflexivity; discriminate Hd).
  destruct (serve_result w request v r t H Hj Hp Hn) as (d & x & Hd' & Hx & Hs).
  rewrite Hd in Hd'. injection Hd' as <-.
  assert (Hnd : nullish data = false) by (destruct data; try reflexivity; discriminate Hid).
  rewrite Hnd, Hid in Hx. injection Hx as <-.
  rewrite Hs. repeat split. exact Hne.
Qed.

Lemma delivery_success_is_answered_with_200_witness :
  fst (serve (world ai_text mail_sent) (post john))
  = Normal (success_response "49a3999c-0ce1-4ea6-ab68-afcd6dc2e794").
Proof.
  refine (proj1 (delivery_success_is_answered_with_200
                   (world ai_text mail_sent)
                   (post john)
                   (welcome_mail (world ai_text mail_sent)
                      (JStr "john@example.com") "John Doe" "technology" "Welcome aboard, John!")
                   (JObj [ ("data", JObj [ ("id", JStr "49a3999c-0ce1-4ea6-ab68-afcd6dc2e794") ]);
                           ("error", JNull) ])
                   "49a3999c-0ce1-4ea6-ab68-afcd6dc2e794" _ eq_refl _)).
  - right. left. reflexivity.
  - exists (JObj [ ("id", JStr "49a3999c-0ce1-4ea6-ab68-afcd6dc2e794") ]).
    repeat split; discriminate.
Defined.

(** ** Failures of the collaborators *)

(** Whatever is thrown between reading the body and reading the result of
    the mail client is answered with the 500 failure response, which
    carries the error's message and the timestamp. *)
Lemma thrown_error_is_answered_with_500 w request v e t :
  String.eqb (method request) "OPTIONS" = false ->
  json request = Normal v ->
  processEmailDelivery v w [] = (Throw e, t) ->
  fst (serve w request)
  = Normal (failure_response (err_message e) (Date_toISOString w)).
Proof.
  intros H Hj Hp. now rewrite (serve_pipeline_throws w request v e t H Hj Hp).
Qed.

(** A rejection of the mail client is such an error. *)
Lemma rejected_delivery_is_answered_with_500 w request mail e :
  In (EvSend mail) (snd (serve w request)) ->
  delivery_reply w mail = Throw e ->
  fst (serve w request)
  = Normal (failure_response (err_message e) (Date_toISOString w)).
Proof.
  intros Hin Hr.
  destruct (serve_sent_inv w request mail Hin) as (v & t & H & Hj & Hp).
  rewrite Hr in Hp. exact (thrown_error_is_answered_with_500 w request v e t H Hj Hp).
Qed.

(** An error of the delivery API that the mail client reports in its
    result is not: the handler reads [data?.id] only. *)
Lemma reported_delivery_error_is_answered_with_200 w request mail result :
  In (EvSend mail) (snd (serve w request)) ->
  delivery_reply w mail = Normal result ->
  DeliveryError result ->
  fst (serve w request) = Normal (ok_response JUndefined).
Proof.
  intros Hin Hr (err & Hd & _ & _).
  destruct (serve_sent_inv w request mail Hin) as (v & t & H & Hj & Hp).
  rewrite Hr in Hp.
  assert (Hn : nullish result = false) by (destruct result; try reflexivity; discriminate Hd).
  destruct (serve_result w request v result t H Hj Hp Hn) as (d & x & Hd' & Hx & Hs).
  rewrite Hd in Hd'. injection Hd' as <-. simpl in Hx. injection Hx as <-.
  now rewrite Hs.
Qed.

(** C2, at the failing input. The end-to-end request, in a world where the
    delivery API refuses the mail and the mail client reports that in its
    result: the handler answers 200 with success true and status
    delivered, and no messageId, where the interface asks for the 500
    failure response. *)
Theorem reported_delivery_error_run :
  DeliveryError
    (JObj [ ("data", JNull);
            ("error", JObj [ ("statusCode", JNum "400");
                             ("message", JStr "API key is invalid");
                             ("name", JStr "validation_error") ]) ]) /\
  In (EvSend (welcome_mail (world ai_text mail_refused) (JStr "john@example.com")
                "John Doe" "technology" "Welcome aboard, John!"))
     (snd (serve (world ai_text mail_refused) (post john))) /\
  fst (serve (world ai_text mail_refused) (post john))
  = Normal {| status := 200;
              headers := (HTTP_HEADERS.JSON ++ HTTP_HEADERS.CORS)%list;
              body := Some (JObj [ ("success", JBool true);
                                   ("status", JStr "delivered") ]) |}.
Proof.
  split; [ | split ].
  - eexists. repeat split.
  - right. left. reflexivity.
  - reflexivity.
Qed.

(** C1, as amended. For a request whose three fields can be read, when the
    text-generation step fails in one of the ways the handler recovers
    from (the request is rejected, the reply is not JSON, the lookup of
    the first completion's content throws, or it finds nothing truthy),
    the handler calls the API once, renders the template around the
    deterministic fallback message and hands exactly that mail to the mail
    client; it answers 200 unless the delivery call itself rejects or
    resolves to nothing. *)
Theorem ai_failure_falls_back_to_template :
  forall w request v name_text email industry_text,
    String.eqb (method request) "OPTIONS" = false ->
    json request = Normal v ->
    lead_fields v = Normal (name_text, email, industry_text) ->
    AIUnavailable (ai_reply w name_text industry_text) ->
    let mail :=
      welcome_mail w email name_text industry_text
        (generateFallbackMessage name_text industry_text) in
    exists response,
      serve w request
      = (Normal response, [ai_call w name_text industry_text; EvSend mail]) /\
      (status response = 200 \/
       (status response = 500 /\ delivery_call_failed (delivery_reply w mail))).
Proof.
  intros w request v n em i H Hj Hf Hai mail.
  pose proof (createPersonalizedWelcomeMessage_fallback n i w [] Hai) as Hc.
  pose proof (processEmailDelivery_text v w [] n em i _ Hf Hc) as Hp.
  exact (serve_after_delivery w request v mail _ H Hj Hp).
Qed.

Lemma ai_failure_falls_back_to_template_witness :
  exists response,
    serve (world ai_down mail_sent) (post john)
    = (Normal response,
       [ ai_call (world ai_down mail_sent) "John Doe" "technology";
         EvSend (welcome_mail (world ai_down mail_sent) (JStr "john@example.com")
                   "John Doe" "technology"
                   (generateFallbackMessage "John Doe" "technology")) ]) /\
    (status response = 200 \/
     (status response = 500 /\
      delivery_call_failed
        (delivery_reply (world ai_down mail_sent)
           (welcome_mail (world ai_down mail_sent) (JStr "john@example.com")
              "John Doe" "technology"
              (generateFallbackMessage "John Doe" "technology"))))).
Proof.
  exact (ai_failure_falls_back_to_template
           (world ai_down mail_sent) (post john) john
           "John Doe" (JStr "john@example.com") "technology"
           eq_refl eq_refl eq_refl (ai_network_error _)).
Defined.

(** C1 as stated fails. A reply whose first completion carries a list of
    content parts is a malformed reply with no completion text, the mail
    client is ready to deliver, and still the handler answers 500 and
    never calls the mail client: the list is truthy, so it is returned in
    place of the fallback, and rendering it throws. *)
Lemma malformed_ai_reply_is_not_recovered :
  AIFailed (ai_reply (world ai_content_parts mail_sent) "John Doe" "technology") /\
  lead_fields john = Normal ("John Doe", JStr "john@example.com", "technology") /\
  serve (world ai_content_parts mail_sent) (post john)
  = (Normal (failure_response "personalizedMessage.replace is not a function"
               "2025-01-01T00:00:00.000Z"),
     [ ai_call (world ai_content_parts mail_sent) "John Doe" "technology" ]).
Proof. repeat split. Qed.

(** The failures named by the interface that the handler does recover from. *)
Lemma recovered_failures :
  AIUnavailable ai_down /\
  AIUnavailable ai_error_document /\
  AIUnavailable (Normal {| response_json := Normal (JObj [ ("choices", JArr []) ]) |}) /\
  AIUnavailable (reply_with_content JNull) /\
  AIUnavailable (reply_with_content (JStr EmptyString)).
Proof.
  repeat split.
  - apply ai_network_error.
  - eapply ai_lookup_throws. reflexivity.
  - eapply ai_no_content; reflexivity.
  - eapply ai_no_content; reflexivity.
  - eapply ai_no_content; reflexivity.
Qed.

(** A failed step that is not recovered from is a reply in which the
    lookup finds a truthy value that is not the text of a first completion. *)
Lemma unrecovered_failures reply :
  AIFailed reply ->
  AIUnavailable reply \/
  exists responseData content,
    reply = Normal {| response_json := Normal responseData |} /\
    first_completion_content responseData = Normal content /\
    truthy content = true /\
    completion_text responseData = None.
Proof.
  intros H. destruct reply as [[[d | e]] | e]; simpl in H.
  - destruct (first_completion_content d) as [c | e] eqn:Hd.
    + destruct (truthy c) eqn:Hc.
      * right. now exists d, c.
      * left. now apply ai_no_content with (content := c).
    + left. now apply ai_lookup_throws with (e := e).
  - left. apply ai_reply_not_json.
  - left. apply ai_network_error.
Qed.

(** ** No validation on the server *)

(** Bodies of the declared type have readable fields, whatever they hold. *)
Lemma lead_fields_EmailRequest name email industry :
  lead_fields (EmailRequest name email industry) = Normal (name, JStr email, industry).
Proof. reflexivity. Qed.

(** C10, as amended. No branch of the handler looks at what the fields
    hold. For every parsed body whose three fields can be read (every
    object with string fields, be the name empty, the email malformed or
    the industry unknown), the handler calls the text-generation API with
    the fields as they are, and the generation step returns. When it
    returns text, the mail is handed to the mail client, addressed to the
    email as given, and the answer is 200 unless the delivery call itself
    rejects or resolves to nothing. When it returns something that is not
    a string, rendering throws: no mail is sent and the answer is 500. *)
Theorem fields_are_not_validated :
  forall w request v name_text email industry_text,
    String.eqb (method request) "OPTIONS" = false ->
    json request = Normal v ->
    lead_fields v = Normal (name_text, email, industry_text) ->
    exists content response t,
      createPersonalizedWelcomeMessage name_text industry_text w []
      = (Normal content, [ai_call w name_text industry_text]) /\
      serve w request = (Normal response, ai_call w name_text industry_text :: t) /\
      (forall message,
         content = JStr message ->
         t = [EvSend (welcome_mail w email name_text industry_text message)] /\
         (status response = 200 \/
          (status response = 500 /\
           delivery_call_failed
             (delivery_reply w (welcome_mail w email name_text industry_text message))))) /\
      ((forall message, content <> JStr message) ->
       t = [] /\ status response = 500).
Proof.
  intros w request v n em i H Hj Hf.
  destruct (createPersonalizedWelcomeMessage_returns n i w []) as [c Hc]. simpl in Hc.
  exists c.
  assert (Hdec : (exists s, c = JStr s) \/ (forall s, c <> JStr s)).
  { destruct c; try (right; intros s; discriminate). left; eexists; reflexivity. }
  destruct Hdec as [[s ->] | Hns].
  - pose proof (processEmailDelivery_text v w [] n em i s Hf Hc) as Hp. simpl in Hp.
    destruct (serve_after_delivery w request v _ _ H Hj Hp) as (response & Hs & Hst).
    exists response, [EvSend (welcome_mail w em n i s)].
    split; [ exact Hc | split; [ exact Hs | split ] ].
    + intros message Hm. injection Hm as <-. now split.
    + intros Hns. exfalso. now apply (Hns s).
  - destruct (processEmailDelivery_no_text v w [] n em i c Hf Hc Hns) as [e Hp].
    simpl in Hp.
    exists (failure_response (err_message e) (Date_toISOString w)), [].
    split; [ exact Hc | split; [ | split ] ].
    + exact (serve_pipeline_throws w request v e _ H Hj Hp).
    + intros message Hm. exfalso. now apply (Hns message).
    + intros _. now split.
Qed.

Lemma fields_are_not_validated_witness :
  exists content response t,
    createPersonalizedWelcomeMessage EmptyString "astrology" (world ai_error_document mail_sent) []
    = (Normal content, [ai_call (world ai_error_document mail_sent) EmptyString "astrology"]) /\
    serve (world ai_error_document mail_sent) (post invalid_lead)
    = (Normal response,
       ai_call (world ai_error_document mail_sent) EmptyString "astrology" :: t) /\
    (forall message,
       content = JStr message ->
       t = [EvSend (welcome_mail (world ai_error_document mail_sent) (JStr "bad")
                      EmptyString "astrology" message)] /\
       (status response = 200 \/
        (status response = 500 /\
         delivery_call_failed
           (delivery_reply (world ai_error_document mail_sent)
              (welcome_mail (world ai_error_document mail_sent) (JStr "bad")
                 EmptyString "astrology" message))))) /\
    ((forall message, content <> JStr message) ->
     t = [] /\ status response = 500).
Proof.
  exact (fields_are_not_validated
           (world ai_error_document mail_sent) (post invalid_lead) invalid_lead
           EmptyString (JStr "bad") "astrology" eq_refl eq_refl eq_refl).
Defined.

(** C10 as stated fails. The body [null] is valid JSON, and the handler
    answers 500 before any content is generated, with an error that comes
    neither from parsing nor from delivery; and for a body with string
    fields, a reply of the text-generation API whose content is not a
    string stops the handler before the mail client is called. *)
Lemma json_body_without_delivery_attempt :
  serve (world (reply_with_content (JStr "Welcome!")) mail_sent) (post JNull)
  = (Normal (failure_response
               "Cannot destructure property 'name' of 'requestData' as it is null."
               "2025-01-01T00:00:00.000Z"),
     []) /\
  serve (world ai_content_parts mail_sent) (post invalid_lead)
  = (Normal (failure_response "personalizedMessage.replace is not a function"
               "2025-01-01T00:00:00.000Z"),
     [ ai_call (world ai_content_parts mail_sent) EmptyString "astrology" ]).
Proof. split; reflexivity. Qed.

End HandlerFacts.

(* ===================================================================== *)
(** * Properties of the fallback message                                 *)
(* ===================================================================== *)

Module FallbackFacts.
Import JS Handler.

(** C5. The fallback message is a fixed text around the name and the
    industry: three constant pieces with the name and the industry between
    them, verbatim, for all names and industries; equal arguments give
    equal messages; and after a failure of the text-generation step the
    message is produced with no call beyond the one that failed. *)
Theorem generateFallbackMessage_is_a_fixed_template :
  exists opening middle closing,
    (forall name industry,
       generateFallbackMessage name industry
       = opening ++ name ++ middle ++ industry ++ closing) /\
    (forall name industry name' industry',
       name = name' -> industry = industry' ->
       generateFallbackMessage name industry = generateFallbackMessage name' industry') /\
    (forall w name industry,
       AIUnavailable (ai_reply w name industry) ->
       createPersonalizedWelcomeMessage name industry w []
       = (Normal (JStr (generateFallbackMessage name industry)), [ai_call w name industry])).
Proof.
  eexists _, _, _. split; [ | split ].
  - intros name industry. unfold generateFallbackMessage. reflexivity.
  - intros name industry name' industry' -> ->. reflexivity.
  - intros w name industry H.
    exact (HandlerFacts.createPersonalizedWelcomeMessage_fallback name industry w [] H).
Qed.

(** The message of the end-to-end scenario. *)
Example generateFallbackMessage_john :
  generateFallbackMessage "John Doe" "technology"
  = "Hello John Doe! 🌟 Welcome to our innovation community! We're excited to have a technology professional join our network. Prepare to explore breakthrough technologies, collaborate with industry pioneers, and discover game-changing opportunities that will reshape your professional landscape. Your innovation adventure starts now!".
Proof. reflexivity. Qed.

End FallbackFacts.

(* ===================================================================== *)
(** * Properties of the validator                                        *)
(* ===================================================================== *)

Module ValidationFacts.
Import Validation.






(** The statement tells validators apart: the tidying one reports the same
    errors and yet changes its input and writes outside, and its second
    call need not repeat the first. *)
Example tidying_validate_is_not_pure :
  fst (tidying_validate {| input := {| name := " J "; email := "bad"; industry := EmptyString |};
                           outside := [] |})
  = fst (validate {| input := {| name := " J "; email := "bad"; industry := EmptyString |};
                     outside := [] |}) /\
  snd (tidying_validate {| input := {| name := " J "; email := "bad"; industry := EmptyString |};
                           outside := [] |})
  = {| input := {| name := "J"; email := "bad"; industry := EmptyString |};
       outside := ["validated"] |} /\
  snd (tidying_validate {| input := {| name := " J "; email := "bad"; industry := EmptyString |};
                           outside := [] |})
  <> {| input := {| name := " J "; email := "bad"; industry := EmptyString |};
        outside := [] |}.
Proof. repeat split. discriminate. Qed.

Lemma not_an_industry industry' :
  ~ In industry' INDUSTRIES -> existsb (String.eqb industry') INDUSTRIES = false.
Proof.
  intros H. destruct (existsb (String.eqb industry') INDUSTRIES) eqn:E; [ | reflexivity ].
  apply existsb_exists in E. destruct E as (x & Hx & Heq).
  apply String.eqb_eq in Heq. subst x. contradiction.
Qed.

(** C7. The input with name J, email bad and no industry gets exactly three
    errors, for name, email and industry in that order. In general a name
    whose trimmed length is below 2 or above 50 gets a name error, an email
    without the address shape gets the email error, and an industry outside
    the eight identifiers gets the industry error. *)
Theorem validateLeadForm_reports_each_field :
  validateLeadForm {| name := "J"; email := "bad"; industry := EmptyString |}
  = [ {| field := "name"; message := "Name must be between 2 and 50 characters" |};
      {| field := "email"; message := "Please enter a valid email address" |};
      {| field := "industry"; message := "Please select an industry" |} ] /\
  forall data : LeadInput,
    (String.length (trim (name data)) < 2 \/ 50 < String.length (trim (name data)) ->
     exists message,
       In {| field := "name"; message := message |} (validateLeadForm data)) /\
    (email_shape (email data) = false ->
     In {| field := "email"; message := "Please enter a valid email address" |}
        (validateLeadForm data)) /\
    (~ In (industry data) INDUSTRIES ->
     In {| field := "industry"; message := "Please select an industry" |}
        (validateLeadForm data)).
Proof.
  split; [ reflexivity | ]. intros data. unfold validateLeadForm. repeat split.
  - intros H. unfold validateName.
    destruct (String.eqb (trim (name data)) EmptyString).
    + eexists. apply in_or_app. left. left. reflexivity.
    + assert (Hb : ((String.length (trim (name data)) <? 2)
                    || (50 <? String.length (trim (name data))))%nat = true).
      { apply orb_true_iff. destruct H as [H | H]; [ left | right ];
          now apply Nat.ltb_lt. }
      rewrite Hb. eexists. apply in_or_app. left. left. reflexivity.
  - intros H. unfold validateEmail. rewrite H.
    apply in_or_app. right. apply in_or_app. left. left. reflexivity.
  - intros H. unfold validateIndustry. rewrite (not_an_industry _ H).
    apply in_or_app. right. apply in_or_app. right. left. reflexivity.
Qed.

(** The converse rules of section 8, and its valid example. *)
Lemma validateName_accepts name' :
  2 <= String.length (trim name') <= 50 -> validateName name' = [].
Proof.
  intros [Hlo Hhi]. unfold validateName.
  destruct (String.eqb (trim name') EmptyString) eqn:E.
  - apply String.eqb_eq in E. rewrite E in Hlo. simpl in Hlo. lia.
  - assert (Hb : ((String.length (trim name') <? 2)
                  || (50 <? String.length (trim name')))%nat = false).
    { apply orb_false_iff. split; apply Nat.ltb_ge; lia. }
    now rewrite Hb.
Qed.

Lemma validateIndustry_accepts industry' :
  In industry' INDUSTRIES -> validateIndustry industry' = [].
Proof.
  intros H. unfold validateIndustry.
  assert (E : existsb (String.eqb industry') INDUSTRIES = true).
  { apply existsb_exists. exists industry'. split; [ exact H | apply String.eqb_refl ]. }
  now rewrite E.
Qed.

Example validateLeadForm_john :
  validateLeadForm {| name := "John Doe"; email := "john@example.com"; industry := "technology" |}
  = [].
Proof. reflexivity. Qed.

Example email_shape_examples :
  email_shape "john@example.com" = true /\
  email_shape "bad" = false /\
  email_shape "john@example" = false /\
  email_shape "@example.com" = false /\
  email_shape "john doe@example.com" = false /\
  email_shape "john@example." = false.
Proof. repeat split. Qed.

End ValidationFacts.

(* ===================================================================== *)
(** * Properties of the form                                             *)
(* ===================================================================== *)

Module FormFacts.
Import JS Form.

(** ** Editing while the call is pending *)

Lemma updateFormField_formData fieldName value s :
  formData (updateFormField fieldName value s) = with_field (formData s) fieldName value.
Proof.
  unfold updateFormField.
  destruct (existsb _ (errors s)); reflexivity.
Qed.

Lemma updateFormField_keeps fieldName value s :
  leadRecords (updateFormField fieldName value s) = leadRecords s /\
  isSubmitted (updateFormField fieldName value s) = isSubmitted s /\
  isLoading (updateFormField fieldName value s) = isLoading s.
Proof.
  unfold updateFormField.
  destruct (existsb _ (errors s)); repeat split.
Qed.

Lemma while_pending_formData typed s :
  formData (while_pending typed s) = typed_into typed (formData s).
Proof.
  unfold while_pending, typed_into. revert s.
  induction typed as [ | [fieldName value] typed IH ]; intros s; simpl.
  - reflexivity.
  - rewrite IH. now rewrite updateFormField_formData.
Qed.

Lemma while_pending_keeps typed s :
  leadRecords (while_pending typed s) = leadRecords s /\
  isSubmitted (while_pending typed s) = isSubmitted s /\
  isLoading (while_pending typed s) = isLoading s.
Proof.
  unfold while_pending. revert s.
  induction typed as [ | [fieldName value] typed IH ]; intros s; simpl.
  - repeat split.
  - destruct (IH (updateFormField fieldName value s)) as (-> & -> & ->).
    apply updateFormField_keeps.
Qed.

(** ** The confirmation call *)

Lemma destructured_error result error :
  member result "error" = Normal error ->
  match result with
  | JUndefined =>
      Throw (TypeError "Cannot destructure property 'error' of '(intermediate value)' as it is undefined.")
  | JNull =>
      Throw (TypeError "Cannot destructure property 'error' of '(intermediate value)' as it is null.")
  | _ => member result "error"
  end = Normal error.
Proof. intros H. destruct result; try discriminate H; exact H. Qed.

Lemma sendConfirmationEmail_throws env leadData :
  InvokeFailed (functions_invoke env "send-confirmation" leadData) ->
  exists e, sendConfirmationEmail env leadData = Throw e.
Proof.
  unfold sendConfirmationEmail. intros H.
  inversion H as [e Hr | r Hn Hr | r err Hm Ht Hr]; simpl.
  - eexists; reflexivity.
  - destruct r; try discriminate; eexists; reflexivity.
  - rewrite (destructured_error r err Hm). simpl. rewrite Ht. eexists; reflexivity.
Qed.

Lemma sendConfirmationEmail_returns env leadData :
  InvokeSucceeded (functions_invoke env "send-confirmation" leadData) ->
  sendConfirmationEmail env leadData = Normal tt.
Proof.
  unfold sendConfirmationEmail. intros H.
  inversion H as [r err Hm Ht Hr]; simpl.
  rewrite (destructured_error r err Hm). simpl. now rewrite Ht.
Qed.

(** ** The submit handler *)

(** C4. For a submission that passes validation, so that the confirmation
    handler is called: when the call fails (it throws, or its result
    reports an error) no lead record is appended, [isSubmitted] keeps its
    value, so the success view is not shown, and the form data is what the
    user entered, not cleared; when the call succeeds exactly one lead
    record is appended, made of the submitted fields and the time of
    submission, the success view is shown and the form is reset. Either way
    the loading flag is cleared. *)
Theorem submission_is_recorded_only_on_success :
  forall validateLeadForm env typed s,
    validateLeadForm (formData s) = [] ->
    let reply := functions_invoke env "send-confirmation" (formData s) in
    let s' := handleFormSubmission validateLeadForm env typed s in
    (InvokeFailed reply ->
       leadRecords s' = leadRecords s /\
       isSubmitted s' = isSubmitted s /\
       formData s' = typed_into typed (formData s) /\
       isLoading s' = false) /\
    (InvokeSucceeded reply ->
       leadRecords s'
       = (leadRecords s ++
          [ {| lead_name := name (formData s);
               lead_email := email (formData s);
               lead_industry := industry (formData s);
               submitted_at := Date_toISOString env |} ])%list /\
       isSubmitted s' = true /\
       formData s' = INITIAL_FORM_STATE /\
       isLoading s' = false).
Proof.
  intros validate env typed s Hv reply s'. subst reply s'.
  unfold handleFormSubmission. rewrite Hv.
  set (s1 := setErrors (fun _ => []) (setIsLoading true s)).
  destruct (while_pending_keeps typed s1) as (Hl & Hs & _).
  pose proof (while_pending_formData typed s1) as Hf.
  split; intros H.
  - destruct (sendConfirmationEmail_throws env (formData s) H) as [e ->]. simpl.
    rewrite Hl, Hs, Hf. repeat split.
  - rewrite (sendConfirmationEmail_returns env (formData s) H). simpl.
    rewrite Hl. repeat split.
Qed.

Lemma submission_is_recorded_only_on_success_witness :
  (leadRecords (handleFormSubmission validateLeadForm handler_failed [] (fresh_form john_doe []))
   = [] /\
   isSubmitted (handleFormSubmission validateLeadForm handler_failed [] (fresh_form john_doe []))
   = false /\
   formData (handleFormSubmission validateLeadForm handler_failed [] (fresh_form john_doe []))
   = john_doe /\
   isLoading (handleFormSubmission validateLeadForm handler_failed [] (fresh_form john_doe []))
   = false) /\
  (leadRecords (handleFormSubmission validateLeadForm handler_succeeded [] (fresh_form john_doe []))
   = [ {| lead_name := "John Doe";
          lead_email := "john@example.com";
          lead_industry := "technology";
          submitted_at := "2025-01-01T00:00:00.000Z" |} ] /\
   isSubmitted (handleFormSubmission validateLeadForm handler_succeeded [] (fresh_form john_doe []))
   = true /\
   formData (handleFormSubmission validateLeadForm handler_succeeded [] (fresh_form john_doe []))
   = INITIAL_FORM_STATE /\
   isLoading (handleFormSubmission validateLeadForm handler_succeeded [] (fresh_form john_doe []))
   = false).
Proof.
  split.
  - refine (proj1 (submission_is_recorded_only_on_success
                     validateLeadForm handler_failed [] (fresh_form john_doe []) eq_refl) _).
    eapply invoke_error_reported; reflexivity.
  - refine (proj2 (submission_is_recorded_only_on_success
                     validateLeadForm handler_succeeded [] (fresh_form john_doe []) eq_refl) _).
    eapply invoke_ok; reflexivity.
Defined.

(** The two runs of the scenario, computed. *)
Example submission_failed_run :
  handleFormSubmission validateLeadForm handler_failed [] (fresh_form john_doe [])
  = fresh_form john_doe [].
Proof. reflexivity. Qed.

Example submission_succeeded_run :
  handleFormSubmission validateLeadForm handler_succeeded [] (fresh_form john_doe [])
  = {| formData := INITIAL_FORM_STATE;
       errors := [];
       isSubmitted := true;
       leadRecords := [ {| lead_name := "John Doe";
                           lead_email := "john@example.com";
                           lead_industry := "technology";
                           submitted_at := "2025-01-01T00:00:00.000Z" |} ];
       isLoading := false |}.
Proof. reflexivity. Qed.

(** An invalid form is not submitted at all. *)
Lemma invalid_form_is_not_submitted validateLeadForm env typed s e es :
  validateLeadForm (formData s) = e :: es ->
  handleFormSubmission validateLeadForm env typed s
  = setIsLoading false (setErrors (fun _ => e :: es) (setIsLoading true s)).
Proof. intros H. unfold handleFormSubmission. now rewrite H. Qed.

End FormFacts.

(* ===================================================================== *)
(** * More on the form: editing, invalid submissions, sessions           *)
(* ===================================================================== *)

Module FormSessions.
Import JS Form.

(** ** Editing a field *)

Lemma find_after_filter_same (fieldName : string) (l : list ValidationError) :
  find (fun error => String.eqb (field error) fieldName)
       (filter (fun error => negb (String.eqb (field error) fieldName)) l) = None.
Proof.
  induction l as [ | e l IH ]; simpl; [ reflexivity | ].
  destruct (String.eqb (field e) fieldName) eqn:E; simpl; [ exact IH | ].
  now rewrite E.
Qed.

Lemma find_after_filter_other (fieldName other : string) (l : list ValidationError) :
  other <> fieldName ->
  find (fun error => String.eqb (field error) other)
       (filter (fun error => negb (String.eqb (field error) fieldName)) l)
  = find (fun error => String.eqb (field error) other) l.
Proof.
  intros Hne. induction l as [ | e l IH ]; simpl; [ reflexivity | ].
  destruct (String.eqb (field e) fieldName) eqn:E; simpl.
  - apply String.eqb_eq in E.
    destruct (String.eqb (field e) other) eqn:E'; [ | exact IH ].
    apply String.eqb_eq in E'. congruence.
  - now rewrite IH.
Qed.

Lemma find_without_match (fieldName : string) (l : list ValidationError) :
  existsb (fun error => String.eqb (field error) fieldName) l = false ->
  find (fun error => String.eqb (field error) fieldName) l = None.
Proof.
  induction l as [ | e l IH ]; simpl; [ reflexivity | ].
  destruct (String.eqb (field e) fieldName); simpl; [ discriminate | exact IH ].
Qed.

(** X1. Editing a field removes the error shown under that field, whatever
    is typed, and leaves the message shown under every other field as it
    was. *)
Theorem editing_clears_only_the_edited_field :
  forall fieldName value s,
    getValidationError (updateFormField fieldName value s) fieldName = None /\
    (forall other,
       other <> fieldName ->
       getValidationError (updateFormField fieldName value s) other
       = getValidationError s other).
Proof.
  intros fieldName value s. unfold getValidationError, updateFormField.
  destruct (existsb _ (errors s)) eqn:E; simpl.
  - split.
    + now rewrite find_after_filter_same.
    + intros other Hne. now rewrite (find_after_filter_other fieldName other _ Hne).
  - split; [ | reflexivity ]. now rewrite (find_without_match fieldName _ E).
Qed.

(** Each of the three inputs writes its own field and no other: after
    an edit of name, email or industry the form holds the typed value in
    that field and the previous values in the other two; records, the
    submitted flag and the loading flag are not touched. *)
Lemma editing_writes_one_field :
  forall value s,
    (formData (updateFormField "name" value s)
     = {| name := value; email := email (formData s); industry := industry (formData s) |}) /\
    (formData (updateFormField "email" value s)
     = {| name := name (formData s); email := value; industry := industry (formData s) |}) /\
    (formData (updateFormField "industry" value s)
     = {| name := name (formData s); email := email (formData s); industry := value |}) /\
    (forall fieldName,
       leadRecords (updateFormField fieldName value s) = leadRecords s /\
       isSubmitted (updateFormField fieldName value s) = isSubmitted s /\
       isLoading (updateFormField fieldName value s) = isLoading s).
Proof.
  intros value s. repeat split;
    try (rewrite FormFacts.updateFormField_formData; reflexivity);
    apply FormFacts.updateFormField_keeps.
Qed.

(** ** Submitting *)

Lemma while_pending_no_errors typed s :
  errors s = [] -> errors (while_pending typed s) = [].
Proof.
  unfold while_pending. revert s.
  induction typed as [ | [fieldName value] typed IH ]; intros s H; simpl; [ exact H | ].
  apply IH. unfold updateFormField. rewrite H. simpl. exact H.
Qed.

Lemma lead_data_of_form (data : FormData) (now : string) :
  lead_data {| lead_name := name data; lead_email := email data;
               lead_industry := industry data; submitted_at := now |} = data.
Proof. now destruct data. Qed.

(** The two ways a submission can end: nothing recorded, or one record
    appended and the success view switched on. *)
Lemma handleFormSubmission_outcomes validateLeadForm env typed s :
  let s' := handleFormSubmission validateLeadForm env typed s in
  isLoading s' = false /\
  ((isSubmitted s' = isSubmitted s /\ leadRecords s' = leadRecords s) \/
   (validateLeadForm (formData s) = [] /\
    isSubmitted s' = true /\
    formData s' = INITIAL_FORM_STATE /\
    errors s' = [] /\
    exists record,
      lead_data record = formData s /\
      submitted_at record = Date_toISOString env /\
      leadRecords s' = (leadRecords s ++ [record])%list)).
Proof.
  unfold handleFormSubmission.
  destruct (validateLeadForm (formData s)) as [ | e es ] eqn:Hv.
  - set (s1 := setErrors (fun _ => []) (setIsLoading true s)).
    destruct (FormFacts.while_pending_keeps typed s1) as (Hl & Hs & _).
    pose proof (while_pending_no_errors typed s1 eq_refl) as He.
    destruct (sendConfirmationEmail env (formData s)) as [ [] | e ]; simpl.
    + split; [ reflexivity | right ]. rewrite Hl, He.
      repeat split. eexists. split; [ apply lead_data_of_form | split; reflexivity ].
    + split; [ reflexivity | left ]. now rewrite Hl, Hs.
  - simpl. split; [ reflexivity | left; split; reflexivity ].
Qed.

(** X2. A form that fails validation is not submitted: the errors shown
    are exactly the validator's, in its order; nothing is recorded, the
    success view stays off, the entered data stays, the loading flag is
    cleared; and the confirmation handler is not consulted, since the
    outcome is the same in every world and whatever is typed meanwhile. *)
Theorem invalid_submission_only_shows_errors :
  forall validateLeadForm env typed s e es,
    validateLeadForm (formData s) = e :: es ->
    let s' := handleFormSubmission validateLeadForm env typed s in
    errors s' = e :: es /\
    getValidationError s' (field e) = Some (message e) /\
    formData s' = formData s /\
    leadRecords s' = leadRecords s /\
    isSubmitted s' = isSubmitted s /\
    isLoading s' = false /\
    (forall env' typed', handleFormSubmission validateLeadForm env' typed' s = s').
Proof.
  intros validate env typed s e es Hv s'. subst s'.
  rewrite (FormFacts.invalid_form_is_not_submitted validate env typed s e es Hv).
  repeat split.
  - unfold getValidationError. simpl. now rewrite String.eqb_refl.
  - intros env' typed'.
    exact (FormFacts.invalid_form_is_not_submitted validate env' typed' s e es Hv).
Qed.

Lemma invalid_submission_only_shows_errors_witness :
  errors (handleFormSubmission validateLeadForm handler_succeeded []
            (fresh_form {| name := "J"; email := "john@example.com"; industry := "technology" |} []))
  = [ {| field := "name"; message := "Name must be between 2 and 50 characters" |} ] /\
  leadRecords (handleFormSubmission validateLeadForm handler_succeeded []
                 (fresh_form {| name := "J"; email := "john@example.com"; industry := "technology" |} []))
  = [].
Proof.
  pose proof (invalid_submission_only_shows_errors
                validateLeadForm handler_succeeded []
                (fresh_form {| name := "J"; email := "john@example.com"; industry := "technology" |} [])
                {| field := "name"; message := "Name must be between 2 and 50 characters" |} []
                eq_refl) as H.
  exact (conj (proj1 H) (proj1 (proj2 (proj2 (proj2 H))))).
Defined.

(** X3. The error a failed confirmation call ends in never depends on
    what the handler reported: a result that carries an error, whatever it
    is, becomes the one error [Email service unavailable]; a rejected call
    is thrown again unchanged; a result without an error lets the
    submission go on. *)
Theorem confirmation_error_is_replaced :
  forall env leadData,
    (forall e,
       functions_invoke env "send-confirmation" leadData = Throw e ->
       sendConfirmationEmail env leadData = Throw e) /\
    (forall result error,
       functions_invoke env "send-confirmation" leadData = Normal result ->
       member result "error" = Normal error ->
       (truthy error = true ->
        sendConfirmationEmail env leadData
        = Throw (mkError "Error" "Email service unavailable")) /\
       (truthy error = false ->
        sendConfirmationEmail env leadData = Normal tt)).
Proof.
  intros env leadData. unfold sendConfirmationEmail. split.
  - intros e ->. reflexivity.
  - intros result error -> Hm. simpl.
    rewrite (FormFacts.destructured_error result error Hm). simpl.
    split; intros ->; reflexivity.
Qed.

(** X4. Add another member, after a successful submission, gives a fresh
    form again: empty fields, no errors, the form view, and the records
    of before with the new one at the end. *)
Theorem success_then_reset_gives_a_fresh_form :
  forall validateLeadForm env typed s,
    validateLeadForm (formData s) = [] ->
    InvokeSucceeded (functions_invoke env "send-confirmation" (formData s)) ->
    resetToNewSubmission (handleFormSubmission validateLeadForm env typed s)
    = fresh_form INITIAL_FORM_STATE
        (leadRecords s ++
         [ {| lead_name := name (formData s);
              lead_email := email (formData s);
              lead_industry := industry (formData s);
              submitted_at := Date_toISOString env |} ])%list.
Proof.
  intros validate env typed s Hv Hok.
  unfold handleFormSubmission. rewrite Hv.
  rewrite (FormFacts.sendConfirmationEmail_returns env (formData s) Hok).
  set (s1 := setErrors (fun _ => []) (setIsLoading true s)).
  destruct (FormFacts.while_pending_keeps typed s1) as (Hl & _ & _).
  unfold resetToNewSubmission, fresh_form, setErrors, setFormData, setIsSubmitted,
    setIsLoading, setLeadRecords; cbn [formData errors isSubmitted leadRecords isLoading].
  rewrite Hl. reflexivity.
Qed.

Lemma success_then_reset_gives_a_fresh_form_witness :
  resetToNewSubmission
    (handleFormSubmission validateLeadForm handler_succeeded [("name", "Jane")]
       (fresh_form john_doe []))
  = fresh_form INITIAL_FORM_STATE
      [ {| lead_name := "John Doe"; lead_email := "john@example.com";
           lead_industry := "technology"; submitted_at := "2025-01-01T00:00:00.000Z" |} ].
Proof.
  refine (success_then_reset_gives_a_fresh_form
            validateLeadForm handler_succeeded [("name", "Jane")]
            (fresh_form john_doe []) eq_refl _).
  eapply invoke_ok; reflexivity.
Defined.

(** ** Sessions *)

Section SessionFacts.

Variable validateLeadForm : FormData -> list ValidationError.

Lemma act_keeps_settled s a :
  settled validateLeadForm s -> settled validateLeadForm (act validateLeadForm s a).
Proof.
  intros Hall. unfold act, view.
  destruct (isSubmitted s) eqn:Hs; destruct a as [fieldName value | env typed | ];
    try exact Hall; destruct Hall as (Hload & Hsub & Hrec).
  - (* the button of the success view *)
    unfold settled, resetToNewSubmission. simpl.
    split; [ assumption | split; [ intros H; discriminate H | assumption ] ].
  - (* an input of the form *)
    destruct (FormFacts.updateFormField_keeps fieldName value s) as (Hl & Hi & Hg).
    unfold settled. rewrite Hl, Hi, Hg, Hs.
    split; [ assumption | split; [ intros H; discriminate H | assumption ] ].
  - (* the submit button *)
    destruct (handleFormSubmission_outcomes validateLeadForm env typed s)
      as (Hl & [(Hi & Hr) | (Hv & Hi & Hd & He & record & Hdata & _ & Hr)]).
    + unfold settled. rewrite Hl, Hi, Hr, Hs.
      split; [ reflexivity | split; [ intros H; discriminate H | assumption ] ].
    + unfold settled. rewrite Hl, Hi, Hd, He, Hr.
      split; [ reflexivity | split ].
      * intros _. repeat split. intros Hnil. now destruct (leadRecords s).
      * apply Forall_app. split; [ assumption | ].
        constructor; [ | constructor ]. now rewrite Hdata.
Qed.

Lemma run_keeps_settled actions :
  forall s, settled validateLeadForm s -> settled validateLeadForm (run validateLeadForm s actions).
Proof.
  unfold run. induction actions as [ | a actions IH ]; intros s H; simpl; [ exact H | ].
  apply IH. now apply act_keeps_settled.
Qed.

Lemma act_appends s a :
  exists added,
    leadRecords (act validateLeadForm s a) = (leadRecords s ++ added)%list /\
    length added <= (if is_submission a then 1 else 0).
Proof.
  assert (Hsame : forall s' : State,
             leadRecords s' = leadRecords s ->
             exists added,
               leadRecords s' = (leadRecords s ++ added)%list /\
               length added <= (if is_submission a then 1 else 0)).
  { intros s' H. exists []. rewrite app_nil_r. split; [ exact H | simpl; lia ]. }
  unfold act, view.
  destruct (isSubmitted s); destruct a as [fieldName value | env typed | ];
    try (apply Hsame; reflexivity).
  - apply Hsame. apply FormFacts.updateFormField_keeps.
  - destruct (handleFormSubmission_outcomes validateLeadForm env typed s)
      as (_ & [(_ & Hr) | (_ & _ & _ & _ & record & _ & _ & Hr)]).
    + apply Hsame. exact Hr.
    + exists [record]. split; [ exact Hr | simpl; lia ].
Qed.

Lemma run_appends actions :
  forall s,
  exists added,
    leadRecords (run validateLeadForm s actions) = (leadRecords s ++ added)%list /\
    length added <= length (filter is_submission actions).
Proof.
  unfold run. induction actions as [ | a actions IH ]; intros s; simpl.
  - exists []. rewrite app_nil_r. split; [ reflexivity | simpl; lia ].
  - destruct (act_appends s a) as (added1 & H1 & L1).
    destruct (IH (act validateLeadForm s a)) as (added2 & H2 & L2).
    exists (added1 ++ added2)%list. rewrite H2, H1, <- app_assoc.
    split; [ reflexivity | ]. rewrite length_app.
    destruct (is_submission a); simpl in *; lia.
Qed.

End SessionFacts.

(** X5. Whatever the user does, in whatever order and whatever the
    confirmation handler answers, between two actions the form is never
    left loading; while the success view is shown the fields are empty, no
    error is shown and at least one lead is recorded; and every recorded
    lead is one the validator accepted. *)
Theorem sessions_stay_consistent :
  forall validateLeadForm actions,
    let s := session validateLeadForm actions in
    isLoading s = false /\
    (view s = SuccessView ->
     formData s = INITIAL_FORM_STATE /\ errors s = [] /\ 1 <= memberNumber s) /\
    Forall (fun record => validateLeadForm (lead_data record) = []) (leadRecords s).
Proof.
  intros validate actions s.
  assert (H : settled validate s).
  { apply run_keeps_settled. unfold settled, INITIAL_STATE. simpl.
    repeat split; try discriminate. constructor. }
  destruct H as (Hl & Hs & Hr).
  split; [ exact Hl | split; [ | exact Hr ] ].
  intros Hv. unfold view in Hv.
  destruct (isSubmitted s) eqn:E; [ | discriminate Hv ].
  destruct (Hs eq_refl) as (Hd & He & Hn).
  split; [ exact Hd | split; [ exact He | ] ].
  unfold memberNumber. destruct (leadRecords s); [ now elim Hn | simpl; lia ].
Qed.

(** X6. The list of leads only grows at its end: continuing a session
    keeps every record made so far, unchanged and in place, and adds at
    most one record per submission; so the member number never goes down
    and never exceeds the number of submissions. *)
Theorem lead_records_are_append_only :
  forall validateLeadForm actions more,
  exists added,
    leadRecords (session validateLeadForm (actions ++ more))
    = (leadRecords (session validateLeadForm actions) ++ added)%list /\
    length added <= length (filter is_submission more) /\
    memberNumber (session validateLeadForm actions)
    <= memberNumber (session validateLeadForm (actions ++ more)) /\
    memberNumber (session validateLeadForm actions)
    <= length (filter is_submission actions).
Proof.
  intros validate actions more. unfold session, run, memberNumber.
  rewrite fold_left_app.
  destruct (run_appends validate more (fold_left (act validate) actions INITIAL_STATE))
    as (added & H & L).
  destruct (run_appends validate actions INITIAL_STATE) as (made & Hm & Lm).
  unfold run in *. exists added. rewrite H. repeat split; try assumption.
  - rewrite length_app. lia.
  - rewrite Hm. simpl. lia.
Qed.

End FormSessions.

(* ===================================================================== *)
(** * More on the handler: content, traces, envelopes, edge cases        *)
(* ===================================================================== *)

Module HandlerRuns.
Import JS Handler Scenarios HandlerFacts.

(** ** Content generation *)

Lemma fallback_is_truthy name industry :
  truthy (JStr (generateFallbackMessage name industry)) = true.
Proof. reflexivity. Qed.

(** X7. Content generation never throws, calls the text-generation API
    exactly once, and never returns an empty or otherwise falsy content:
    what it returns is the fallback message or a truthy value found at
    [choices[0].message.content] of the reply. *)
Theorem generated_content_is_never_empty :
  forall name_text industry_text w t,
  exists content,
    createPersonalizedWelcomeMessage name_text industry_text w t
    = (Normal content, (t ++ [ai_call w name_text industry_text])%list) /\
    truthy content = true /\
    (content = JStr (generateFallbackMessage name_text industry_text) \/
     exists response responseData,
       ai_reply w name_text industry_text = Normal response /\
       response_json response = Normal responseData /\
       first_completion_content responseData = Normal content).
Proof.
  intros n i w t.
  unfold createPersonalizedWelcomeMessage, try_catch, bind, ask, fetch, lift, ret,
    ai_call, ai_reply.
  destruct (net_fetch w OPENAI_URL (aiFetchInit w n i)) as [r | e] eqn:Hr;
    [ destruct (response_json r) as [d | e] eqn:Hj;
      [ destruct (first_completion_content d) as [c | e] eqn:Hd;
        [ destruct (truthy c) eqn:Hc | ] | ] | ];
    eexists; (split; [ reflexivity | ]);
    try (split; [ apply fallback_is_truthy | left; reflexivity ]).
  split; [ exact Hc | right ]. now exists r, d.
Qed.

(** On a reply of the declared shape the lookup finds the text. *)
Lemma completion_text_is_found responseData text :
  completion_text responseData = Some text ->
  first_completion_content responseData = Normal (JStr text).
Proof.
  unfold completion_text, first_completion_content. intros H.
  destruct responseData as [ | | | | | | reply ]; try discriminate H. simpl.
  destruct (own "choices" reply) as [ [ | | | | | [ | [ | | | | | | first ] rest ] | ] | ];
    try discriminate H. simpl.
  destruct (own "message" first) as [ [ | | | | | | message ] | ]; try discriminate H. simpl.
  destruct (own "content" message) as [ [ | | | | s | | ] | ]; try discriminate H.
  now injection H as ->.
Qed.

(** X8. When the text-generation API answers with a reply of the declared
    shape whose first completion has a non-empty text, that text is what
    is mailed, with each line feed turned into a break tag, to the address
    of the request; completions after the first play no part. *)
Theorem ai_text_is_mailed :
  forall w request v name_text email industry_text response responseData text,
    String.eqb (method request) "OPTIONS" = false ->
    json request = Normal v ->
    lead_fields v = Normal (name_text, email, industry_text) ->
    ai_reply w name_text industry_text = Normal response ->
    response_json response = Normal responseData ->
    completion_text responseData = Some text ->
    text <> EmptyString ->
    snd (serve w request)
    = [ ai_call w name_text industry_text;
        EvSend {| from := "Innovation Community <testing-email@lovable.dev>";
                  to := [email];
                  subject := "🚀 " ++ name_text ++ ", Welcome to the Innovation Revolution!";
                  html := email_html industry_text (replace_newlines text) |} ].
Proof.
  intros w request v n em i r d text H Hj Hf Hr Hd Ht Hne.
  assert (Htruthy : truthy (JStr text) = true).
  { simpl. destruct text; [ now elim Hne | reflexivity ]. }
  pose proof (createPersonalizedWelcomeMessage_content n i w [] r d (JStr text)
                Hr Hd (completion_text_is_found d text Ht) Htruthy) as Hc.
  pose proof (processEmailDelivery_text v w [] n em i text Hf Hc) as Hp. simpl in Hp.
  rewrite (serve_trace w request v H Hj), Hp. reflexivity.
Qed.

Lemma ai_text_is_mailed_witness :
  snd (serve (world ai_text mail_sent) (post john))
  = [ ai_call (world ai_text mail_sent) "John Doe" "technology";
      EvSend {| from := "Innovation Community <testing-email@lovable.dev>";
                to := [JStr "john@example.com"];
                subject := "🚀 " ++ "John Doe" ++ ", Welcome to the Innovation Revolution!";
                html := email_html "technology" (replace_newlines "Welcome aboard, John!") |} ].
Proof.
  refine (ai_text_is_mailed (world ai_text mail_sent) (post john) john
            "John Doe" (JStr "john@example.com") "technology"
            {| response_json :=
                 Normal (JObj [ ("choices",
                                 JArr [ JObj [ ("message",
                                               JObj [ ("content", JStr "Welcome aboard, John!") ]) ] ]) ]) |}
            _ "Welcome aboard, John!"
            eq_refl eq_refl eq_refl eq_refl eq_refl eq_refl _).
  discriminate.
Defined.

(** ** Traces *)

(** The trace of a request, by the way its pipeline went. *)
Lemma serve_trace_cases w request :
  snd (serve w request) = [] \/
  exists v name_text email industry_text,
    String.eqb (method request) "OPTIONS" = false /\
    json request = Normal v /\
    lead_fields v = Normal (name_text, email, industry_text) /\
    (snd (serve w request) = [ai_call w name_text industry_text] \/
     exists message,
       snd (serve w request)
       = [ai_call w name_text industry_text;
          EvSend (welcome_mail w email name_text industry_text message)]).
Proof.
  destruct (String.eqb (method request) "OPTIONS") eqn:H.
  { left. now rewrite (serve_options w request H). }
  destruct (json request) as [v | e] eqn:Hj.
  2:{ left. now rewrite (serve_body_rejected w request e H Hj). }
  rewrite (serve_trace w request v H Hj).
  pose proof (processEmailDelivery_runs v w) as Hrun.
  inversion Hrun as [e Hf Heq | n i em e Hf Heq | n i s em Hf Hc Heq]; simpl.
  - now left.
  - right. exists v, n, em, i. repeat split; try assumption. now left.
  - right. exists v, n, em, i. repeat split; try assumption. right. now exists s.
Qed.

(** X9. One request makes at most two external calls, in a fixed order:
    nothing, or the one call to the text-generation API, or that call
    followed by one hand-over to the mail client. The mail client is never
    called first or twice, and no call is repeated. *)
Theorem a_request_makes_at_most_two_calls :
  forall w request,
    snd (serve w request) = [] \/
    (exists init, snd (serve w request) = [EvFetch OPENAI_URL init]) \/
    (exists init mail, snd (serve w request) = [EvFetch OPENAI_URL init; EvSend mail]).
Proof.
  intros w request.
  destruct (serve_trace_cases w request)
    as [H | (v & n & em & i & _ & _ & _ & [H | [s H]])]; rewrite H.
  - now left.
  - right. left. now eexists.
  - right. right. now eexists _, _.
Qed.

(** X10. Every mail the handler hands to the mail client comes from the
    fixed sender, goes to exactly one recipient, the [email] value of the
    request body as it was given, and carries the name of the body in its
    subject; the reply of the text-generation API can only affect the
    HTML. *)
Theorem mail_envelope_comes_from_the_request :
  forall w request mail,
    In (EvSend mail) (snd (serve w request)) ->
    exists v name_text email industry_text message,
      json request = Normal v /\
      lead_fields v = Normal (name_text, email, industry_text) /\
      from mail = "Innovation Community <testing-email@lovable.dev>" /\
      to mail = [email] /\
      subject mail = "🚀 " ++ name_text ++ ", Welcome to the Innovation Revolution!" /\
      html mail = email_html industry_text (replace_newlines message).
Proof.
  intros w request mail Hin.
  destruct (serve_trace_cases w request)
    as [H | (v & n & em & i & _ & Hj & Hf & [H | [s H]])]; rewrite H in Hin.
  - destruct Hin.
  - destruct Hin as [Hin | []]. discriminate Hin.
  - destruct Hin as [Hin | [Hin | []]]; [ discriminate Hin | ].
    injection Hin as <-. exists v, n, em, i, s. repeat split; assumption.
Qed.

Lemma mail_envelope_comes_from_the_request_witness :
  exists v name_text email industry_text message,
    json (post john) = Normal v /\
    lead_fields v = Normal (name_text, email, industry_text) /\
    from (welcome_mail (world ai_down mail_sent) (JStr "john@example.com")
            "John Doe" "technology" (generateFallbackMessage "John Doe" "technology"))
    = "Innovation Community <testing-email@lovable.dev>" /\
    to (welcome_mail (world ai_down mail_sent) (JStr "john@example.com")
          "John Doe" "technology" (generateFallbackMessage "John Doe" "technology"))
    = [email] /\
    subject (welcome_mail (world ai_down mail_sent) (JStr "john@example.com")
               "John Doe" "technology" (generateFallbackMessage "John Doe" "technology"))
    = "🚀 " ++ name_text ++ ", Welcome to the Innovation Revolution!" /\
    html (welcome_mail (world ai_down mail_sent) (JStr "john@example.com")
            "John Doe" "technology" (generateFallbackMessage "John Doe" "technology"))
    = email_html industry_text (replace_newlines message).
Proof.
  refine (mail_envelope_comes_from_the_request
            (world ai_down mail_sent) (post john)
            (welcome_mail (world ai_down mail_sent) (JStr "john@example.com")
               "John Doe" "technology" (generateFallbackMessage "John Doe" "technology")) _).
  right. left. reflexivity.
Defined.

(** X11. A request other than OPTIONS is answered with 200 exactly when
    the mail was handed to the mail client and the client resolved to a
    value other than [null] and [undefined]; in every other case the
    answer is 500. In particular a 200 is never sent without a hand-over
    to the mail client. *)
Theorem status_200_means_the_client_resolved :
  forall w request response t,
    String.eqb (method request) "OPTIONS" = false ->
    serve w request = (Normal response, t) ->
    (status response = 200 <->
     exists mail result,
       In (EvSend mail) t /\
       delivery_reply w mail = Normal result /\
       nullish result = false) /\
    (status response = 200 \/ status response = 500).
Proof.
  intros w request response t H Hs.
  destruct (json request) as [v | e] eqn:Hj.
  2:{ rewrite (serve_body_rejected w request e H Hj) in Hs. injection Hs as <- <-.
      split; [ split | now right ].
      - discriminate.
      - intros (mail & r & [] & _). }
  pose proof (serve_trace w request v H Hj) as Ht. rewrite Hs in Ht. simpl in Ht.
  pose proof (processEmailDelivery_runs v w) as Hrun.
  inversion Hrun as [e Hf Heq | n i em e Hf Heq | n i s em Hf Hc Heq];
    rewrite <- Heq in Ht; simpl in Ht; symmetry in Heq.
  - rewrite (serve_pipeline_throws w request v e _ H Hj Heq) in Hs. injection Hs as <- <-.
    split; [ split | now right ].
    + discriminate.
    + intros (mail & r & [] & _).
  - rewrite (serve_pipeline_throws w request v e _ H Hj Heq) in Hs. injection Hs as <- <-.
    split; [ split | now right ].
    + discriminate.
    + intros (mail & r & [Hin | []] & _). discriminate Hin.
  - set (mail := welcome_mail w em n i s) in *.
    destruct (delivery_reply w mail) as [r | e] eqn:Hr.
    + destruct (nullish r) eqn:Hn.
      * destruct (serve_result_nullish w request v r _ H Hj Heq Hn) as [e He].
        rewrite He in Hs. injection Hs as <- <-.
        split; [ split | now right ].
        -- discriminate.
        -- intros (mail' & r' & [Hin | [Hin | []]] & Hr' & Hn'); [ discriminate Hin | ].
           injection Hin as <-. congruence.
      * destruct (serve_result w request v r _ H Hj Heq Hn) as (d & x & _ & _ & Hok).
        rewrite Hok in Hs. injection Hs as <- <-.
        split; [ split | now left ].
        -- intros _. exists mail, r. repeat split; try assumption. right. now left.
        -- reflexivity.
    + rewrite (serve_pipeline_throws w request v e _ H Hj Heq) in Hs. injection Hs as <- <-.
      split; [ split | now right ].
      * discriminate.
      * intros (mail' & r' & [Hin | [Hin | []]] & Hr' & _); [ discriminate Hin | ].
        injection Hin as <-. congruence.
Qed.

Lemma status_200_means_the_client_resolved_witness :
  (status (success_response "49a3999c-0ce1-4ea6-ab68-afcd6dc2e794") = 200 <->
   exists mail result,
     In (EvSend mail) (snd (serve (world ai_text mail_sent) (post john))) /\
     delivery_reply (world ai_text mail_sent) mail = Normal result /\
     nullish result = false) /\
  (status (success_response "49a3999c-0ce1-4ea6-ab68-afcd6dc2e794") = 200 \/
   status (success_response "49a3999c-0ce1-4ea6-ab68-afcd6dc2e794") = 500).
Proof.
  exact (status_200_means_the_client_resolved
           (world ai_text mail_sent) (post john)
           (success_response "49a3999c-0ce1-4ea6-ab68-afcd6dc2e794")
           (snd (serve (world ai_text mail_sent) (post john)))
           eq_refl eq_refl).
Defined.

(** ** Rendering *)

Lemma replace_newlines_app a b :
  replace_newlines (a ++ b) = replace_newlines a ++ replace_newlines b.
Proof.
  induction a as [ | c a IH ]; simpl; [ reflexivity | ].
  destruct (Ascii.eqb c (ascii_of_nat 10)); simpl; now rewrite IH.
Qed.

(** X12. The welcome text is rendered on what is left of it once every
    line feed is replaced by a break tag: the replacement leaves no line
    feed behind, changes nothing else (a text without line feeds is
    rendered as it is, markup included), works piece by piece, and adds
    three characters per line feed. *)
Theorem line_feeds_become_break_tags :
  forall text,
    existsb is_line_feed (list_ascii_of_string (replace_newlines text)) = false /\
    (existsb is_line_feed (list_ascii_of_string text) = false ->
     replace_newlines text = text) /\
    (forall more, replace_newlines (text ++ more)
                  = replace_newlines text ++ replace_newlines more) /\
    String.length (replace_newlines text)
    = String.length text
      + 3 * length (filter is_line_feed (list_ascii_of_string text)).
Proof.
  intros text. unfold is_line_feed. repeat split.
  - induction text as [ | c text IH ]; simpl; [ reflexivity | ].
    destruct (Ascii.eqb c (ascii_of_nat 10)) eqn:E; simpl; [ exact IH | ].
    now rewrite E.
  - induction text as [ | c text IH ]; simpl; [ reflexivity | ].
    destruct (Ascii.eqb c (ascii_of_nat 10)); simpl; [ discriminate | ].
    intros H. now rewrite (IH H).
  - intros more. apply replace_newlines_app.
  - induction text as [ | c text IH ]; simpl; [ reflexivity | ].
    destruct (Ascii.eqb c (ascii_of_nat 10)); simpl; rewrite IH; lia.
Qed.

(** ** What the handler does not look at *)

Lemma processEmailDelivery_reads_three_fields v v' w t :
  destructure v = destructure v' ->
  processEmailDelivery v w t = processEmailDelivery v' w t.
Proof.
  intros H. unfold processEmailDelivery, bind, ask, lift. now rewrite H.
Qed.

Lemma serve_reads_three_fields w request request' v v' :
  String.eqb (method request) "OPTIONS" = false ->
  String.eqb (method request') "OPTIONS" = false ->
  json request = Normal v ->
  json request' = Normal v' ->
  destructure v = destructure v' ->
  serve w request = serve w request'.
Proof.
  intros H H' Hj Hj' Hd. unfold serve, requestHandler. rewrite H, H'.
  unfold try_catch, bind, lift. rewrite Hj, Hj'.
  now rewrite (processEmailDelivery_reads_three_fields v v' w [] Hd).
Qed.

(** X13. Of an object body the handler reads the properties [name],
    [email] and [industry] and nothing else: two bodies that agree on
    these three get the same answer and cause the same external calls,
    whatever other properties they carry. *)
Theorem other_properties_of_the_body_are_ignored :
  forall w request request' props props',
    String.eqb (method request) "OPTIONS" = false ->
    String.eqb (method request') "OPTIONS" = false ->
    json request = Normal (JObj props) ->
    json request' = Normal (JObj props') ->
    own "name" props = own "name" props' ->
    own "email" props = own "email" props' ->
    own "industry" props = own "industry" props' ->
    serve w request = serve w request'.
Proof.
  intros w request request' props props' H H' Hj Hj' Hn He Hi.
  apply (serve_reads_three_fields w request request' _ _ H H' Hj Hj').
  simpl. now rewrite Hn, He, Hi.
Qed.

Lemma other_properties_of_the_body_are_ignored_witness :
  serve (world ai_text mail_sent)
    (post (JObj [ ("from", JStr "ceo@example.com");
                  ("name", JStr "John Doe");
                  ("subject", JStr "Invoice");
                  ("email", JStr "john@example.com");
                  ("industry", JStr "technology") ]))
  = serve (world ai_text mail_sent) (post john).
Proof.
  exact (other_properties_of_the_body_are_ignored
           (world ai_text mail_sent)
           (post (JObj [ ("from", JStr "ceo@example.com");
                         ("name", JStr "John Doe");
                         ("subject", JStr "Invoice");
                         ("email", JStr "john@example.com");
                         ("industry", JStr "technology") ]))
           (post john)
           [ ("from", JStr "ceo@example.com");
             ("name", JStr "John Doe");
             ("subject", JStr "Invoice");
             ("email", JStr "john@example.com");
             ("industry", JStr "technology") ]
           [ ("name", JStr "John Doe");
             ("email", JStr "john@example.com");
             ("industry", JStr "technology") ]
           eq_refl eq_refl eq_refl eq_refl eq_refl eq_refl eq_refl).
Defined.

(** X14. The handler tells OPTIONS from everything else and makes no other
    use of the method: the same body gets the same answer and causes the
    same external calls under any two methods other than OPTIONS, so a
    GET or a DELETE with a body sends mail as a POST does. *)
Theorem method_is_not_checked :
  forall w request request',
    String.eqb (method request) "OPTIONS" = false ->
    String.eqb (method request') "OPTIONS" = false ->
    json request = json request' ->
    serve w request = serve w request'.
Proof.
  intros w request request' H H' Hj. unfold serve, requestHandler.
  now rewrite H, H', Hj.
Qed.

Lemma method_is_not_checked_witness :
  serve (world ai_text mail_sent) {| method := "DELETE"; json := Normal john |}
  = serve (world ai_text mail_sent) (post john).
Proof.
  exact (method_is_not_checked (world ai_text mail_sent)
           {| method := "DELETE"; json := Normal john |} (post john)
           eq_refl eq_refl eq_refl).
Defined.

(** X15. A body that is not [null] and lacks the three properties (an
    empty object, a number, a string, a list) is not refused: the missing
    values read as [undefined], the text-generation API is asked about
    somebody called undefined from the undefined sector, and any mail
    that follows greets undefined and has [undefined] as its one
    recipient. *)
Theorem missing_fields_read_as_undefined :
  forall w request v,
    String.eqb (method request) "OPTIONS" = false ->
    json request = Normal v ->
    member v "name" = Normal JUndefined ->
    member v "email" = Normal JUndefined ->
    member v "industry" = Normal JUndefined ->
    exists t,
      snd (serve w request) = ai_call w "undefined" "undefined" :: t /\
      forall mail,
        In (EvSend mail) t ->
        to mail = [JUndefined] /\
        subject mail = "🚀 undefined, Welcome to the Innovation Revolution!".
Proof.
  intros w request v H Hj Hn He Hi.
  assert (Hf : lead_fields v = Normal ("undefined", JUndefined, "undefined")).
  { unfold lead_fields, destructure.
    destruct v; try discriminate Hn; rewrite Hn, He, Hi; reflexivity. }
  destruct (serve_trace_cases w request)
    as [Ht | (v' & n & em & i & _ & Hj' & Hf' & Ht)].
  - exfalso. rewrite (serve_trace w request v H Hj) in Ht.
    pose proof (processEmailDelivery_runs v w) as Hrun.
    inversion Hrun as [e Hf' Heq | n i em e Hf' Heq | n i s em Hf' Hc Heq];
      rewrite <- Heq in Ht; simpl in Ht; congruence.
  - rewrite Hj in Hj'. injection Hj' as <-. rewrite Hf in Hf'.
    injection Hf' as <- <- <-.
    destruct Ht as [Ht | [s Ht]]; rewrite Ht; eexists; (split; [ reflexivity | ]).
    + intros mail [].
    + intros mail [Hin | []]. injection Hin as <-. split; reflexivity.
Qed.

Lemma missing_fields_read_as_undefined_witness :
  exists t,
    snd (serve (world ai_down mail_sent) (post (JObj [])))
    = ai_call (world ai_down mail_sent) "undefined" "undefined" :: t /\
    forall mail,
      In (EvSend mail) t ->
      to mail = [JUndefined] /\
      subject mail = "🚀 undefined, Welcome to the Innovation Revolution!".
Proof.
  exact (missing_fields_read_as_undefined (world ai_down mail_sent) (post (JObj [])) (JObj [])
           eq_refl eq_refl eq_refl eq_refl eq_refl).
Defined.

(** ** Missing configuration *)

(** X16. Missing environment variables never stop the handler. The mail
    client always gets a non-empty key: the variable when it is set and
    not empty, the placeholder [invalid_key] otherwise. Without a key for
    the text-generation API the request is still made, with the word
    undefined after Bearer. *)
Theorem missing_keys_are_replaced :
  forall w,
    RESEND_KEY (CONFIG w) <> EmptyString /\
    (forall key,
       Deno_env_get w "RESEND_PUBLIC_KEY" = Some key ->
       key <> EmptyString ->
       RESEND_KEY (CONFIG w) = key) /\
    (Deno_env_get w "RESEND_PUBLIC_KEY" = None \/
     Deno_env_get w "RESEND_PUBLIC_KEY" = Some EmptyString ->
     RESEND_KEY (CONFIG w) = "invalid_key") /\
    (Deno_env_get w "OPENAI_API_KEY" = None ->
     forall name_text industry_text,
       fetch_headers (aiFetchInit w name_text industry_text)
       = [ ("Authorization", "Bearer undefined"); ("Content-Type", "application/json") ]).
Proof.
  intros w. unfold CONFIG, env_or. simpl. repeat split.
  - destruct (Deno_env_get w "RESEND_PUBLIC_KEY") as [k | ]; [ | discriminate ].
    destruct (String.eqb k EmptyString) eqn:E; [ discriminate | ].
    intros ->. discriminate E.
  - intros key -> Hne. destruct (String.eqb key EmptyString) eqn:E; [ | reflexivity ].
    apply String.eqb_eq in E. contradiction.
  - intros [-> | ->]; reflexivity.
  - intros H n i. unfold aiFetchInit, CONFIG. simpl. now rewrite H.
Qed.

(** ** The messages of the handler's own errors *)

Section NestedInduction.

Variable P : JSValue -> Prop.
Hypothesis on_undefined : P JUndefined.
Hypothesis on_null : P JNull.
Hypothesis on_bool : forall b, P (JBool b).
Hypothesis on_num : forall n, P (JNum n).
Hypothesis on_str : forall s, P (JStr s).
Hypothesis on_arr : forall elems, Forall P elems -> P (JArr elems).
Hypothesis on_obj : forall props, Forall (fun kv => P (snd kv)) props -> P (JObj props).

(** Induction on values that reaches into lists and objects. *)
Fixpoint JSValue_nested_ind (v : JSValue) : P v :=
  match v with
  | JUndefined => on_undefined
  | JNull => on_null
  | JBool b => on_bool b
  | JNum n => on_num n
  | JStr s => on_str s
  | JArr elems =>
      on_arr elems
        ((fix all (l : list JSValue) : Forall P l :=
            match l with
            | [] => Forall_nil P
            | x :: rest => Forall_cons x (JSValue_nested_ind x) (all rest)
            end) elems)
  | JObj props =>
      on_obj props
        ((fix all (l : list (string * JSValue)) : Forall (fun kv => P (snd kv)) l :=
            match l with
            | [] => Forall_nil _
            | kv :: rest => Forall_cons kv (JSValue_nested_ind (snd kv)) (all rest)
            end) props)
  end.

End NestedInduction.

Lemma ToString_cons x rest :
  ToString (JArr (x :: rest))
  = cbind (if nullish x then Normal EmptyString else ToString x) (fun sx =>
    match rest with
    | [] => Normal sx
    | _ => cbind (ToString (JArr rest)) (fun sr => Normal (sx ++ "," ++ sr))
    end).
Proof. reflexivity. Qed.

(** Interpolation throws one error only, and only on an object that
    shadows [toString], however deep in a list it sits. *)
Lemma ToString_throws v :
  forall e, ToString v = Throw e ->
            e = TypeError "Cannot convert object to primitive value".
Proof.
  induction v as [ | | b | n | s | elems IH | props _ ] using JSValue_nested_ind;
    intros e H; try (destruct b); try discriminate H.
  - revert e H. induction IH as [ | x rest Hx _ IHrest ]; intros e H; [ discriminate H | ].
    rewrite ToString_cons in H.
    assert (Hrest : forall sx,
               match rest with
               | [] => Normal sx
               | _ => cbind (ToString (JArr rest)) (fun sr => Normal (sx ++ "," ++ sr))
               end = Throw e ->
               e = TypeError "Cannot convert object to primitive value").
    { intros sx Hr. destruct rest as [ | y rest ]; [ discriminate Hr | ].
      destruct (ToString (JArr (y :: rest))) as [sr | e'] eqn:E;
        cbn [cbind] in Hr; [ discriminate Hr | ].
      injection Hr as <-. now apply IHrest. }
    destruct (nullish x).
    + cbn [cbind] in H. exact (Hrest _ H).
    + destruct (ToString x) as [sx | e'] eqn:Ex; cbn [cbind] in H.
      * exact (Hrest _ H).
      * injection H as <-. now apply Hx.
  - simpl in H. destruct (has_own "toString" props); [ | discriminate H ].
    now injection H as <-.
Qed.

Lemma lead_fields_error_has_message v e :
  lead_fields v = Throw e -> err_message e <> EmptyString.
Proof.
  unfold lead_fields. intros H.
  destruct (destructure v) as [[[n em] i] | e1] eqn:Hd; simpl in H.
  - destruct (ToString n) as [sn | e2] eqn:Hn; simpl in H.
    + destruct (ToString i) as [si | e3] eqn:Hi; simpl in H; [ discriminate H | ].
      injection H as <-. rewrite (ToString_throws i e3 Hi). discriminate.
    + injection H as <-. rewrite (ToString_throws n e2 Hn). discriminate.
  - injection H as <-. destruct v; simpl in Hd; try discriminate Hd;
      injection Hd as <-; discriminate.
Qed.

Lemma rendering_error_has_message v w t name_text email industry_text content :
  lead_fields v = Normal (name_text, email, industry_text) ->
  createPersonalizedWelcomeMessage name_text industry_text w t
  = (Normal content, (t ++ [ai_call w name_text industry_text])%list) ->
  (forall message, content <> JStr message) ->
  exists e,
    processEmailDelivery v w t = (Throw e, (t ++ [ai_call w name_text industry_text])%list) /\
    err_message e <> EmptyString.
Proof.
  intros H Hc Hns. read_fields v; try congruence.
  injection H as -> -> ->. rewrite Hc.
  destruct (ToString content) as [sc | e4] eqn:E.
  - destruct content; try (eexists; split; [ reflexivity | discriminate ]).
    exfalso. eapply Hns. reflexivity.
  - eexists; split; [ reflexivity | ].
    rewrite (ToString_throws content e4 E). discriminate.
Qed.

(** X17. Every error the handler raises itself has a message: a 500
    answer carries a non-empty [error] text whenever the two outside
    rejections it may pass on, that of reading the body and that of the
    mail client, carry one. Unreadable fields, a generated content that is
    not a string and a result of [null] or [undefined] each come with
    their own text. *)
Theorem failure_responses_carry_a_message :
  forall w request response t,
    String.eqb (method request) "OPTIONS" = false ->
    serve w request = (Normal response, t) ->
    status response = 500 ->
    (forall e, json request = Throw e -> err_message e <> EmptyString) ->
    (forall mail e,
       In (EvSend mail) t -> delivery_reply w mail = Throw e ->
       err_message e <> EmptyString) ->
    exists message,
      response = failure_response message (Date_toISOString w) /\
      message <> EmptyString.
Proof.
  intros w request response t H Hs Hst Hbody Hmail.
  destruct (json request) as [v | e] eqn:Hj.
  2:{ rewrite (serve_body_rejected w request e H Hj) in Hs. injection Hs as <- <-.
      eexists; split; [ reflexivity | now apply Hbody ]. }
  destruct (lead_fields v) as [[[n em] i] | e] eqn:Hf.
  2:{ rewrite (serve_pipeline_throws w request v e []
                 H Hj (processEmailDelivery_no_fields v w [] e Hf)) in Hs.
      injection Hs as <- <-.
      eexists; split; [ reflexivity | exact (lead_fields_error_has_message v e Hf) ]. }
  destruct (createPersonalizedWelcomeMessage_returns n i w []) as [c Hc]. simpl in Hc.
  assert (Hdec : (exists s, c = JStr s) \/ (forall s, c <> JStr s)).
  { destruct c; try (right; intros s; discriminate). left; eexists; reflexivity. }
  destruct Hdec as [[s ->] | Hns].
  - pose proof (processEmailDelivery_text v w [] n em i s Hf Hc) as Hp. simpl in Hp.
    set (mail := welcome_mail w em n i s) in *.
    destruct (delivery_reply w mail) as [r | e] eqn:Hr.
    + destruct (nullish r) eqn:Hn.
      * unfold serve, requestHandler in Hs. rewrite H in Hs.
        unfold try_catch, bind, lift in Hs. rewrite Hj, Hp in Hs.
        destruct r; try discriminate Hn; simpl in Hs; injection Hs as <- <-;
          (eexists; split; [ reflexivity | discriminate ]).
      * destruct (serve_result w request v r _ H Hj Hp Hn) as (d & x & _ & _ & Hok).
        rewrite Hok in Hs. injection Hs as <- <-. discriminate Hst.
    + rewrite (serve_pipeline_throws w request v e _ H Hj Hp) in Hs.
      injection Hs as <- <-.
      eexists; split; [ reflexivity | ].
      apply (Hmail mail e); [ right; now left | exact Hr ].
  - destruct (rendering_error_has_message v w [] n em i c Hf Hc Hns) as (e & Hp & Hm).
    simpl in Hp.
    rewrite (serve_pipeline_throws w request v e _ H Hj Hp) in Hs.
    injection Hs as <- <-. eexists; split; [ reflexivity | exact Hm ].
Qed.

Lemma failure_responses_carry_a_message_witness :
  exists message,
    failure_response "Cannot destructure property 'name' of 'requestData' as it is null."
      "2025-01-01T00:00:00.000Z"
    = failure_response message (Date_toISOString (world ai_text mail_sent)) /\
    message <> EmptyString.
Proof.
  refine (failure_responses_carry_a_message
            (world ai_text mail_sent) (post JNull)
            (failure_response
               "Cannot destructure property 'name' of 'requestData' as it is null."
               "2025-01-01T00:00:00.000Z")
            [] eq_refl eq_refl eq_refl _ _).
  - intros e He. discriminate He.
  - intros mail e [].
Defined.

(** ** The two bodies *)

Lemma ok_response_body messageId :
  exists props,
    body (ok_response messageId) = Some (JObj props) /\
    own "success" props = Some (JBool true) /\
    own "status" props = Some (JStr "delivered") /\
    own "error" props = None /\
    own "timestamp" props = None.
Proof. destruct messageId; eexists; repeat split. Qed.

(** X18. The body always agrees with the status. A request other than
    OPTIONS gets a JSON object that either says success true and status
    delivered under 200, with no error and no timestamp, or says success
    false under 500, with the error text and the timestamp of the clock
    and no messageId. *)
Theorem body_agrees_with_status :
  forall w request response t,
    String.eqb (method request) "OPTIONS" = false ->
    serve w request = (Normal response, t) ->
    exists props,
      body response = Some (JObj props) /\
      ((status response = 200 /\
        own "success" props = Some (JBool true) /\
        own "status" props = Some (JStr "delivered") /\
        own "error" props = None /\
        own "timestamp" props = None) \/
       (status response = 500 /\
        own "success" props = Some (JBool false) /\
        (exists message, own "error" props = Some (JStr message)) /\
        own "timestamp" props = Some (JStr (Date_toISOString w)) /\
        own "messageId" props = None)).
Proof.
  intros w request response t H Hs.
  assert (Hshape : (exists x, response = ok_response x) \/
                   (exists m, response = failure_response m (Date_toISOString w))).
  { destruct (json request) as [v | e] eqn:Hj.
    - destruct (processEmailDelivery v w []) as [[r | e] t'] eqn:Hp.
      + destruct (nullish r) eqn:Hn.
        * destruct (serve_result_nullish w request v r t' H Hj Hp Hn) as [e He].
          rewrite He in Hs. injection Hs as <- _. right. now eexists.
        * destruct (serve_result w request v r t' H Hj Hp Hn) as (d & x & _ & _ & Hok).
          rewrite Hok in Hs. injection Hs as <- _. left. now eexists.
      + rewrite (serve_pipeline_throws w request v e t' H Hj Hp) in Hs.
        injection Hs as <- _. right. now eexists.
    - rewrite (serve_body_rejected w request e H Hj) in Hs.
      injection Hs as <- _. right. now eexists. }
  destruct Hshape as [[x ->] | [m ->]].
  - destruct (ok_response_body x) as (props & Hb & Hrest).
    exists props. split; [ exact Hb | left; split; [ reflexivity | exact Hrest ] ].
  - eexists. split; [ reflexivity | right ]. repeat split. now exists m.
Qed.

Lemma body_agrees_with_status_witness :
  exists props,
    body (failure_response "error sending request for url (https://api.resend.com/emails)"
            "2025-01-01T00:00:00.000Z")
    = Some (JObj props) /\
    ((status (failure_response "error sending request for url (https://api.resend.com/emails)"
                "2025-01-01T00:00:00.000Z") = 200 /\
      own "success" props = Some (JBool true) /\
      own "status" props = Some (JStr "delivered") /\
      own "error" props = None /\
      own "timestamp" props = None) \/
     (status (failure_response "error sending request for url (https://api.resend.com/emails)"
                "2025-01-01T00:00:00.000Z") = 500 /\
      own "success" props = Some (JBool false) /\
      (exists message, own "error" props = Some (JStr message)) /\
      own "timestamp" props
      = Some (JStr (Date_toISOString (world ai_text mail_unreachable))) /\
      own "messageId" props = None)).
Proof.
  exact (body_agrees_with_status
           (world ai_text mail_unreachable) (post john)
           (failure_response "error sending request for url (https://api.resend.com/emails)"
              "2025-01-01T00:00:00.000Z")
           (snd (serve (world ai_text mail_unreachable) (post john)))
           eq_refl eq_refl).
Defined.

(** ** What reaches the text-generation API *)

Lemma serve_trace_with_fields w request v name_text email industry_text :
  String.eqb (method request) "OPTIONS" = false ->
  json request = Normal v ->
  lead_fields v = Normal (name_text, email, industry_text) ->
  exists t, snd (serve w request) = ai_call w name_text industry_text :: t.
Proof.
  intros H Hj Hf. rewrite (serve_trace w request v H Hj).
  pose proof (processEmailDelivery_runs v w) as Hrun.
  inversion Hrun as [e Hf' Heq | n i em e Hf' Heq | n i s em Hf' Hc Heq];
    rewrite Hf in Hf'; try discriminate Hf'; injection Hf' as <- <- <-;
    eexists; reflexivity.
Qed.

(** X19. The email address never reaches the text-generation API: two
    requests with the same name and industry cause the very same call to
    it, whatever their email values are. *)
Theorem email_is_not_sent_to_the_text_api :
  forall w request request' v v' name_text industry_text email email',
    String.eqb (method request) "OPTIONS" = false ->
    String.eqb (method request') "OPTIONS" = false ->
    json request = Normal v ->
    json request' = Normal v' ->
    lead_fields v = Normal (name_text, email, industry_text) ->
    lead_fields v' = Normal (name_text, email', industry_text) ->
    exists call,
      hd_error (snd (serve w request)) = Some call /\
      hd_error (snd (serve w request')) = Some call.
Proof.
  intros w request request' v v' n i em em' H H' Hj Hj' Hf Hf'.
  destruct (serve_trace_with_fields w request v n em i H Hj Hf) as [t ->].
  destruct (serve_trace_with_fields w request' v' n em' i H' Hj' Hf') as [t' ->].
  now eexists.
Qed.

Lemma email_is_not_sent_to_the_text_api_witness :
  exists call,
    hd_error (snd (serve (world ai_text mail_sent) (post john))) = Some call /\
    hd_error (snd (serve (world ai_text mail_sent)
                     (post (EmailRequest "John Doe" "jane@example.org" "technology"))))
    = Some call.
Proof.
  exact (email_is_not_sent_to_the_text_api
           (world ai_text mail_sent) (post john)
           (post (EmailRequest "John Doe" "jane@example.org" "technology"))
           john (EmailRequest "John Doe" "jane@example.org" "technology")
           "John Doe" "technology" (JStr "john@example.com") (JStr "jane@example.org")
           eq_refl eq_refl eq_refl eq_refl eq_refl eq_refl).
Defined.

End HandlerRuns.
